(** * Fig5.py: the synthetic throughput model and the grid composer

    A shallow embedding of [Fig5.py].  Python [int]s are [Z], Python
    [float]s are IEEE 754 binary64 numbers (Rocq's primitive floats, with
    the same round-to-nearest-even arithmetic as CPython), [str]s are
    [string]s, the module-level dictionaries are [gmap]s and the lists are
    lists.  The plotting library, the console and numpy's random generator
    are the environment: the calls made to them are recorded in a world
    that is threaded through the program together with the generator's
    state. *)

From Stdlib Require Import ZArith Floats Lia.
From stdpp Require Import base list strings gmap pretty.

Set Warnings "-inexact-float".
Local Open Scope Z_scope.

(** ** Python numbers *)

(** [float(z)] for a Python [int]: the correctly rounded binary64 value.
    CPython raises [OverflowError] when the rounded value is not finite
    (from about 1.8e308 on); the statements below stay far inside that
    range, where the conversion of this model and CPython's agree. *)
Definition float_of_int (z : Z) : float :=
  SF2Prim (binary_normalize prec emax z 0 false).

(** The value a Python expression over [int] and [float] evaluates to. *)
Inductive pynum :=
  | PyInt (z : Z)
  | PyFloat (f : float).

(** [x >= 0] as Python evaluates it on a number. *)
Definition py_ge0 (x : pynum) : bool :=
  match x with
  | PyInt z => 0 <=? z
  | PyFloat f => (float_of_int 0 <=? f)%float
  end.

(** [max(0, x)] for a float [x]: the builtin keeps its first argument
    unless a later one compares strictly greater, so the [int] [0] comes
    back whenever [x > 0] is false (also when [x] is a NaN). *)
Definition py_max0 (x : float) : pynum :=
  if (float_of_int 0 <? x)%float then PyFloat x else PyInt 0.

(** ** Configuration *)

Definition NUM_NODES : list Z := [5; 10; 20].

Definition CONTENTION_LEVELS : gmap string Z :=
  <["high" := 20]> (<["medium" := 100]> (<["low" := 1000]> ∅)).

Definition LOCALITY_PERCENTAGES : list Z := [85; 90; 95].

Definition THREADS_PER_NODE : list Z := [2; 4; 6; 8; 10; 12].

Definition SYSTEMS : list string := ["ALock"; "MCS"; "Spin"].

(** (color, marker, base_linestyle) *)
Definition SYSTEM_STYLE_COLS1_3 : gmap string (string * string * string) :=
  <["ALock" := ("#1f77b4", "s", "-")]>
  (<["MCS" := ("#ff7f0e", "x", "--")]>
  (<["Spin" := ("#2ca02c", "o", ":")]> ∅)).

Definition SYSTEM_STYLE_COL4 : gmap string (string * string * string) :=
  <["ALock" := ("purple", "o", "-")]>
  (<["MCS" := ("pink", "s", "--")]>
  (<["Spin" := ("orange", "x", ":")]> ∅)).

Definition LOCALITY_STYLES : gmap Z string :=
  <[85 := "-"]> (<[90 := "--"]> (<[95 := ":"]> ∅)).

Definition CONTENTION_STYLES : gmap string string :=
  <["high" := "-"]> (<["medium" := "--"]> (<["low" := ":"]> ∅)).

(** ** The throughput model, before the noise *)

(** The local variables of [generate_synthetic_throughput] at the point
    where the noise is about to be drawn. *)
Record locals := mk_locals {
  total_threads : Z;
  base_throughput : Z;
  thread_factor : float;
  locality_factor : float;
  contention_factor : float;
  degradation : float;
  throughput : float
}.

(** Lines 61 to 115 of [generate_synthetic_throughput]: one branch per
    system, the last one taken by every name that is neither ['ALock'] nor
    ['MCS'].  An [int] operand of a mixed product is converted first, and
    the product of the five factors is evaluated left to right. *)
Definition throughput_locals
    (system : string) (num_threads num_nodes : Z)
    (contention : string) (locality : Z) : locals :=
  let total_threads := num_threads * num_nodes in
  if String.eqb system "ALock" then
    let base_throughput := 500000 in
    let thread_factor := (1.0 + float_of_int (num_threads - 1) * 0.15)%float in
    let locality_factor :=
      if locality <? 100
      then (1.0 + float_of_int (locality - 85) * 0.02)%float
      else 1.3%float in
    let contention_factor :=
      if String.eqb contention "high" then 1.2%float
      else if String.eqb contention "medium" then 1.0%float
      else 0.85%float in
    let degradation :=
      if total_threads >? 100
      then (1.0 - float_of_int (total_threads - 100) * 0.001)%float
      else 1.0%float in
    mk_locals total_threads base_throughput thread_factor locality_factor
      contention_factor degradation
      (float_of_int base_throughput * thread_factor * locality_factor
       * contention_factor * degradation)%float
  else if String.eqb system "MCS" then
    let base_throughput := 200000 in
    let thread_factor := (1.0 + float_of_int (num_threads - 1) * 0.12)%float in
    let locality_factor :=
      if locality <? 100
      then (1.0 + float_of_int (locality - 85) * 0.01)%float
      else 0.1%float in
    let contention_factor :=
      if String.eqb contention "high" then 0.6%float
      else if String.eqb contention "medium" then 0.9%float
      else 1.0%float in
    let degradation :=
      if total_threads >? 80
      then (1.0 - float_of_int (total_threads - 80) * 0.002)%float
      else 1.0%float in
    mk_locals total_threads base_throughput thread_factor locality_factor
      contention_factor degradation
      (float_of_int base_throughput * thread_factor * locality_factor
       * contention_factor * degradation)%float
  else
    let base_throughput := 150000 in
    let thread_factor := (1.0 + float_of_int (num_threads - 1) * 0.08)%float in
    let locality_factor :=
      if locality <? 100
      then (1.0 + float_of_int (locality - 85) * 0.005)%float
      else 0.05%float in
    let contention_factor :=
      if String.eqb contention "high" then 0.4%float
      else if String.eqb contention "medium" then 0.7%float
      else 0.9%float in
    let degradation :=
      if total_threads >? 40
      then (1.0 - float_of_int (total_threads - 40) * 0.003)%float
      else 1.0%float in
    mk_locals total_threads base_throughput thread_factor locality_factor
      contention_factor degradation
      (float_of_int base_throughput * thread_factor * locality_factor
       * contention_factor * degradation)%float.

(** The last two statements before [return], for a given noise draw. *)
Definition apply_noise (throughput noise : float) : pynum :=
  py_max0 (throughput * noise)%float.

(** ** The environment *)

(** Python's exception classes, as far as the program can tell them
    apart: [except Exception] catches the classes that derive from
    [Exception]; [KeyboardInterrupt], [SystemExit] and [GeneratorExit]
    derive from [BaseException] only. *)
Inductive exn_class :=
  | KeyError | IndexError | ValueError | RuntimeError | MemoryError | OSError
  | KeyboardInterrupt | SystemExit | GeneratorExit.

Record exn := mk_exn { exn_cls : exn_class; exn_str : string }.

Definition isinstance_Exception (e : exn) : bool :=
  match exn_cls e with
  | KeyboardInterrupt | SystemExit | GeneratorExit => false
  | _ => true
  end.

(** A handle on one subplot: its row and column in the grid. *)
Definition axes_id : Type := nat * nat.

(** The arguments of one [ax.plot] call. *)
Record line2d := mk_line {
  xdata : list Z;
  ydata : list pynum;
  color : string;
  marker : string;
  linestyle : string;
  linewidth : Z;
  markersize : Z;
  markeredgewidth : Z;
  label : option string
}.

(** The calls the program makes to [os] and to the plotting library. *)
Inductive call :=
  | OsMakedirs (path : string) (exist_ok : bool)
  | PltSubplots (nrows ncols : nat) (figsize : Z * Z)
  | AxPlot (ax : axes_id) (ln : line2d)
  | AxSetXlabel (ax : axes_id) (s : string) (fontsize : Z)
  | AxSetYlabel (ax : axes_id) (s : string) (fontsize labelpad : option Z)
  | AxGrid (ax : axes_id) (visible : bool) (alpha : float) (ls : string)
  | AxSetXlim (ax : axes_id) (left right : Z)
  | AxSetYlim (ax : axes_id) (bottom : Z)
  | AxSetXticks (ax : axes_id) (ticks : list Z)
  | AxTickParams (ax : axes_id) (axis which : string) (labelsize : Z)
  | AxText (ax : axes_id) (x y : float) (s : string) (transform : string)
      (fontsize : Z) (fontweight verticalalignment : string)
  | AxSetTitle (ax : axes_id) (s : string) (fontsize : Z)
      (fontweight : string) (pad : Z)
  | PltTightLayout (rect : list float) (pad : float)
  | PltSavefig (path : string) (dpi : Z) (bbox_inches : string)
      (pad_inches : float)
  | PltClose.

(** What reaches the terminal. *)
Inductive console_event :=
  | Print (s : string)
  | TqdmOpen (total : Z) (desc unit_ : string)
  | TqdmUpdate (n : Z)
  | TqdmClose
  | TracebackPrintExc (e : exn).

Inductive outcome (A : Type) :=
  | Ok (a : A)
  | Raise (e : exn).
Arguments Ok {A} a.
Arguments Raise {A} e.

Definition newline : string := String (Ascii.ascii_of_nat 10) "".

(** [s * n] on a string. *)
Fixpoint str_mul (s : string) (n : nat) : string :=
  match n with
  | O => ""
  | S n' => s +:+ str_mul s n'
  end.

Module Py.
Section WithGenerator.

(** numpy's generator is outside the repository: its state is a type
    [R], [np.random.seed] and [np.random.normal] are functions on it. *)
Context {R : Type}.
Variable seed : Z → R.
Variable normal : float → float → R → float * R.

(** The world the program runs in.  [env_script] is what the
    environment will answer to the calls to come, one entry per call:
    [None] lets the call through, [Some e] makes it raise [e]; when the
    script is used up every call goes through. *)
Record world := mk_world {
  rng : R;
  calls : list call;
  console : list console_event;
  env_script : list (option exn)
}.

(** State and exceptions: a computation runs on a world and either
    returns or raises, and the world it leaves behind is kept in both
    cases. *)
Definition M (A : Type) : Type := world → outcome A * world.

#[global] Instance M_ret : MRet M := λ A a w, (Ok a, w).

#[global] Instance M_bind : MBind M := λ A B f m w,
  match m w with
  | (Ok a, w') => f a w'
  | (Raise e, w') => (Raise e, w')
  end.

Definition raise {A} (e : exn) : M A := λ w, (Raise e, w).

(** [for x in xs: body], with the local variables the body assigns to
    carried from one round to the next. *)
Fixpoint for_ {A S} (xs : list A) (body : A → S → M S) (s : S) : M S :=
  match xs with
  | [] => mret s
  | x :: xs' => s' ← body x s; for_ xs' body s'
  end.

(** [for i, x in enumerate(xs)]. *)
Definition enumerate {A} (xs : list A) : list (nat * A) :=
  zip (seq 0 (length xs)) xs.

(** [d[k]] on a dictionary. *)
Definition getitem `{Countable K} {V} (repr : K → string)
    (d : gmap K V) (k : K) : M V :=
  match d !! k with
  | Some v => mret v
  | None => raise (mk_exn KeyError (repr k))
  end.

(** [xs[i]] on a list, for an index that is not negative. *)
Definition index {A} (xs : list A) (i : nat) : M A :=
  match xs !! i with
  | Some x => mret x
  | None => raise (mk_exn IndexError "list index out of range")
  end.

Definition str_repr (s : string) : string := "'" +:+ s +:+ "'".

(** A call into the environment. *)
Definition call_env (c : call) : M unit := λ w,
  match env_script w with
  | Some e :: script =>
      (Raise e, mk_world (rng w) (calls w) (console w) script)
  | None :: script =>
      (Ok (), mk_world (rng w) (calls w ++ [c]) (console w) script)
  | [] =>
      (Ok (), mk_world (rng w) (calls w ++ [c]) (console w) [])
  end.

Definition emit (ev : console_event) : M unit := λ w,
  (Ok (), mk_world (rng w) (calls w) (console w ++ [ev]) (env_script w)).

Definition print (s : string) : M unit := emit (Print s).

Definition np_random_seed (s : Z) : M unit := λ w,
  (Ok (), mk_world (seed s) (calls w) (console w) (env_script w)).

Definition np_random_normal (loc scale : float) : M float := λ w,
  let draw := normal loc scale (rng w) in
  (Ok (fst draw), mk_world (snd draw) (calls w) (console w) (env_script w)).

(** [plt.subplots(nrows, ncols, figsize=...)] hands back the handles of
    the subplots as a two-dimensional array. *)
Definition plt_subplots (nrows ncols : nat) (figsize : Z * Z)
    : M (list (list axes_id)) :=
  call_env (PltSubplots nrows ncols figsize);;
  mret ((λ r, (λ c, (r, c)) <$> seq 0 ncols) <$> seq 0 nrows).

(** [axes[row_idx, col_idx]]. *)
Definition axes_at (axes : list (list axes_id)) (row_idx col_idx : nat)
    : M axes_id :=
  match axes !! row_idx ≫= (.!! col_idx) with
  | Some ax => mret ax
  | None => raise (mk_exn IndexError "index out of bounds")
  end.

(** ** The throughput model *)

Definition generate_synthetic_throughput
    (system : string) (num_threads num_nodes : Z)
    (contention : string) (locality : Z) : M pynum :=
  let throughput :=
    throughput
      (throughput_locals system num_threads num_nodes contention locality) in
  noise ← np_random_normal 1.0 0.05;
  let throughput := apply_noise throughput noise in
  mret throughput.

(** ** The grid composer *)

Definition create_subplot_cols1_3
    (ax : axes_id) (num_nodes : Z) (contention : string) : M axes_id :=
  for_ SYSTEMS (λ system _,
    '(color, marker, _) ← getitem str_repr SYSTEM_STYLE_COLS1_3 system;
    for_ LOCALITY_PERCENTAGES (λ locality _,
      '(threads_list, throughput_list) ←
        for_ THREADS_PER_NODE (λ num_threads '(threads_list, throughput_list),
          throughput ←
            generate_synthetic_throughput
              system num_threads num_nodes contention locality;
          mret (threads_list ++ [num_threads], throughput_list ++ [throughput]))
        ([], []);
      linestyle ← getitem pretty LOCALITY_STYLES locality;
      first ← index SYSTEMS 0;
      let label :=
        if String.eqb system first
        then Some (system +:+ " " +:+ pretty locality +:+ "%")
        else None in
      let '(plot_marker, marker_edgewidth) :=
        if String.eqb linestyle ":" then ("s", 1)
        else if String.eqb linestyle "--" then ("x", 2)
        else (marker, 1) in
      call_env (AxPlot ax
        (mk_line threads_list throughput_list color plot_marker linestyle
           2 6 marker_edgewidth label))) ()) ();;
  call_env (AxSetXlabel ax "Threads per Node" 10);;
  call_env (AxSetYlabel ax "Throughput (ops/s)" (Some 10) (Some 15));;
  call_env (AxGrid ax true 0.3%float "--");;
  call_env (AxSetXlim ax 0 12);;
  call_env (AxSetYlim ax 0);;
  call_env (AxSetXticks ax [0; 4; 8; 12]);;
  call_env (AxTickParams ax "both" "major" 9);;
  mret ax.

Definition create_subplot_col4 (ax : axes_id) (num_nodes : Z) : M axes_id :=
  for_ SYSTEMS (λ system _,
    '(color, marker, _) ← getitem str_repr SYSTEM_STYLE_COL4 system;
    for_ ["high"; "medium"; "low"] (λ contention _,
      '(threads_list, throughput_list) ←
        for_ THREADS_PER_NODE (λ num_threads '(threads_list, throughput_list),
          throughput ←
            generate_synthetic_throughput
              system num_threads num_nodes contention 100;
          mret (threads_list ++ [num_threads], throughput_list ++ [throughput]))
        ([], []);
      linestyle ← getitem str_repr CONTENTION_STYLES contention;
      first ← index SYSTEMS 0;
      label ←
        (if String.eqb system first
         then keys ← getitem str_repr CONTENTION_LEVELS contention;
              mret (Some (system +:+ " " +:+ pretty keys))
         else mret None);
      let '(plot_marker, marker_edgewidth) :=
        if String.eqb linestyle ":" then ("s", 1)
        else if String.eqb linestyle "--" then ("x", 2)
        else (marker, 1) in
      call_env (AxPlot ax
        (mk_line threads_list throughput_list color plot_marker linestyle
           2 6 marker_edgewidth label))) ()) ();;
  call_env (AxSetXlabel ax "Threads per Node" 10);;
  call_env (AxSetYlabel ax "Throughput (ops/s)" (Some 10) (Some 15));;
  call_env (AxGrid ax true 0.3%float "--");;
  call_env (AxSetXlim ax 0 12);;
  call_env (AxSetYlim ax 0);;
  call_env (AxSetXticks ax [0; 4; 8; 12]);;
  call_env (AxTickParams ax "both" "major" 9);;
  mret ax.

Definition GRID_DIMENSIONS : Z * Z := (16, 12).

Definition create_figure5_grid : M string :=
  axes ← plt_subplots 3 4 GRID_DIMENSIONS;
  let labels := ["(a)"; "(b)"; "(c)"; "(d)"; "(e)"; "(f)";
                 "(g)"; "(h)"; "(i)"; "(j)"; "(k)"; "(l)"] in
  let label_idx := 0%nat in
  let col_titles := ["20 Keys"; "100 Keys"; "1000 Keys"; "100% Local"] in
  let row_titles := ["5 Nodes"; "10 Nodes"; "20 Nodes"] in
  for_ (seq 0 4) (λ col_idx label_idx,
    for_ (enumerate NUM_NODES) (λ '(row_idx, num_nodes) label_idx,
      ax ← axes_at axes row_idx col_idx;
      (if (col_idx <? 3)%nat then
         contention ← index ["high"; "medium"; "low"] col_idx;
         create_subplot_cols1_3 ax num_nodes contention
       else
         create_subplot_col4 ax num_nodes);;
      (if (0 <? col_idx)%nat
       then call_env (AxSetYlabel ax "" None None)
       else mret ());;
      subplot_label ← index labels label_idx;
      call_env (AxText ax 0.02%float 0.98%float subplot_label "ax.transAxes" 12
             "bold" "top");;
      let label_idx := (label_idx + 1)%nat in
      col_title ← index col_titles col_idx;
      row_title ← index row_titles row_idx;
      call_env (AxSetTitle ax (col_title +:+ ", " +:+ row_title) 11 "bold" 10);;
      mret label_idx) label_idx) label_idx;;
  call_env (PltTightLayout [0.02; 0.02; 0.98; 0.98]%float 2.0%float);;
  let save_path := "fig5_plots" +:+ "/" +:+ "figure5_grid.png" in
  call_env (PltSavefig save_path 300 "tight" 0.2%float);;
  call_env PltClose;;
  mret save_path.

(** ** The entry point *)

(** [with tqdm(...) as pbar: body]: the bar is closed when the block is
    left, whether it returned or raised, and an exception goes on. *)
Definition with_tqdm {A} (total : Z) (desc unit_ : string) (body : M A)
    : M A := λ w,
  match (emit (TqdmOpen total desc unit_);; body) w with
  | (r, w') => (r, snd (emit TqdmClose w'))
  end.

(** [try: body / except Exception as e: handler]. *)
Definition try_except_Exception {A} (body : M A) (handler : exn → M A)
    : M A := λ w,
  match body w with
  | (Ok a, w') => (Ok a, w')
  | (Raise e, w') =>
      if isinstance_Exception e then handler e w' else (Raise e, w')
  end.

Definition main : M unit :=
  print "Generating Figure 5 grid layout...";;
  print (str_mul "=" 60);;
  try_except_Exception
    (save_path ←
       with_tqdm 1 "Creating grid" "figure"
         (save_path ← create_figure5_grid;
          emit (TqdmUpdate 1);;
          mret save_path);
     print (newline +:+ str_mul "=" 60);;
     print ("✓ Successfully generated Figure 5 grid: " +:+ save_path);;
     print (newline +:+ "Note: This uses synthetic data. Replace generate_synthetic_throughput() with your real data!"))
    (λ e,
     print (newline +:+ "❌ Error generating plot: " +:+ exn_str e);;
     emit (TracebackPrintExc e)).

(** The module run as a script: the output directory is made when the
    module is loaded, then the generator is seeded and [main] runs. *)
Definition script : M unit :=
  call_env (OsMakedirs "fig5_plots" true);;
  np_random_seed 42;;
  main.

(** The world a run starts in: nothing called or printed yet, the
    generator in the state [r] and the environment answering as [env] says. *)
Definition start (r : R) (env : list (option exn)) : world :=
  mk_world r [] [] env.

End WithGenerator.
End Py.


(** ** Reading the record of a run *)

(** The series plotted on one subplot, in the order they were plotted. *)
Definition plots_on (ax : axes_id) (cs : list call) : list line2d :=
  cs ≫= λ c,
    match c with
    | AxPlot ax' ln => if decide (ax' = ax) then [ln] else []
    | _ => []
    end.

(** The grids that were asked for, as (rows, columns). *)
Definition grids (cs : list call) : list (nat * nat) :=
  cs ≫= λ c,
    match c with
    | PltSubplots nrows ncols _ => [(nrows, ncols)]
    | _ => []
    end.

(** The texts written into the subplots: the panel labels. *)
Definition panel_labels (cs : list call) : list (axes_id * string) :=
  cs ≫= λ c,
    match c with
    | AxText ax _ _ s _ _ _ _ => [(ax, s)]
    | _ => []
    end.

Definition panel_titles (cs : list call) : list (axes_id * string) :=
  cs ≫= λ c,
    match c with
    | AxSetTitle ax s _ _ _ => [(ax, s)]
    | _ => []
    end.

(** Every throughput value handed to the plotting library, in order. *)
Definition throughput_sequence (cs : list call) : list pynum :=
  cs ≫= λ c,
    match c with
    | AxPlot _ ln => ydata ln
    | _ => []
    end.

(** The labels a legend of the subplot would show. *)
Definition legend_labels (lns : list line2d) : list string :=
  omap label lns.

Definition line_style (ln : line2d) : string * string * Z :=
  (linestyle ln, marker ln, markeredgewidth ln).

(** ** The grid, as the specification describes it *)

(** The subplots in column-major order: the three rows of column 0, then
    column 1, and so on. *)
Definition column_major : list axes_id :=
  col ← seq 0 4; row ← seq 0 3; [(row, col)].

(** The secondary variant of a series: a locality percentage in the first
    three columns, a contention level in the last. *)
Inductive variant :=
  | Locality (percent : Z)
  | Keys (contention : string).

Definition variants (col : nat) : list variant :=
  if (col <? 3)%nat
  then Locality <$> [85; 90; 95]
  else Keys <$> ["high"; "medium"; "low"].

(** The nine series of a subplot: systems outside, variants inside. *)
Definition panel_series (col : nat) : list (string * variant) :=
  system ← ["ALock"; "MCS"; "Spin"]; v ← variants col; [(system, v)].

(** Line style by variant value: solid, dashed, dotted. *)
Definition style_of_variant (v : variant) : string :=
  match v with
  | Locality 85 => "-"
  | Locality 90 => "--"
  | Locality _ => ":"
  | Keys c =>
      if String.eqb c "high" then "-"
      else if String.eqb c "medium" then "--"
      else ":"
  end.

(** What a variant is called in a label. *)
Definition variant_text (v : variant) : string :=
  match v with
  | Locality p => pretty p +:+ "%"
  | Keys c =>
      if String.eqb c "high" then "20"
      else if String.eqb c "medium" then "100"
      else "1000"
  end.

(** A system's base color and own marker, by column. *)
Definition system_color (col : nat) (system : string) : string :=
  if (col <? 3)%nat then
    if String.eqb system "ALock" then "#1f77b4"
    else if String.eqb system "MCS" then "#ff7f0e" else "#2ca02c"
  else
    if String.eqb system "ALock" then "purple"
    else if String.eqb system "MCS" then "pink" else "orange".

Definition system_marker (col : nat) (system : string) : string :=
  if (col <? 3)%nat then
    if String.eqb system "ALock" then "s"
    else if String.eqb system "MCS" then "x" else "o"
  else
    if String.eqb system "ALock" then "o"
    else if String.eqb system "MCS" then "s" else "x".

(** Marker and marker edge width by line style: dotted gives a square,
    dashed a bold cross, solid keeps the system's own marker. *)
Definition marker_of_style (ls own : string) : string :=
  if String.eqb ls ":" then "s"
  else if String.eqb ls "--" then "x"
  else own.

Definition edgewidth_of_style (ls : string) : Z :=
  if String.eqb ls "--" then 2 else 1.

(** The label, if any, of the series of a system and a variant: only the
    first system's series carry one. *)
Definition series_label (system : string) (v : variant) : option string :=
  if String.eqb system "ALock"
  then Some (system +:+ " " +:+ variant_text v)
  else None.

(** The panel labels and titles, subplot by subplot. *)
Definition labelled_panels : list (axes_id * string) :=
  zip column_major
    ["(a)"; "(b)"; "(c)"; "(d)"; "(e)"; "(f)";
     "(g)"; "(h)"; "(i)"; "(j)"; "(k)"; "(l)"].

Definition titled_panels : list (axes_id * string) :=
  '(col, keys) ← zip (seq 0 4) ["20 Keys"; "100 Keys"; "1000 Keys"; "100% Local"];
  '(row, nodes) ← zip (seq 0 3) [5; 10; 20];
  [((row, col), keys +:+ ", " +:+ pretty nodes +:+ " Nodes")].

(** The parameter tuples in the order the grid asks for them: subplots in
    column-major order, then systems, then variants, then threads. *)
Definition parameter_sequence : list (string * Z * Z * string * Z) :=
  col ← seq 0 4;
  num_nodes ← [5; 10; 20];
  system ← ["ALock"; "MCS"; "Spin"];
  v ← variants col;
  num_threads ← [2; 4; 6; 8; 10; 12];
  match v with
  | Locality p =>
      [(system, num_threads, num_nodes,
        default "" (["high"; "medium"; "low"] !! col), p)]
  | Keys c => [(system, num_threads, num_nodes, c, 100)]
  end.

(** The parameter tuples of one subplot: the node count goes with the
    row, the contention level or the full locality with the column. *)
Definition panel_parameters (ax : axes_id) : list (string * Z * Z * string * Z) :=
  let '(row, col) := ax in
  num_nodes ← option_list ([5; 10; 20] !! row);
  system ← ["ALock"; "MCS"; "Spin"];
  v ← variants col;
  num_threads ← [2; 4; 6; 8; 10; 12];
  match v with
  | Locality p =>
      [(system, num_threads, num_nodes,
        default "" (["high"; "medium"; "low"] !! col), p)]
  | Keys c => [(system, num_threads, num_nodes, c, 100)]
  end.

(** The number of draws made before a subplot is reached. *)
Definition draws_before (ax : axes_id) : nat :=
  let '(row, col) := ax in (54 * (3 * col + row))%nat.

Definition noiseless (p : string * Z * Z * string * Z) : float :=
  let '(system, num_threads, num_nodes, contention, locality) := p in
  throughput (throughput_locals system num_threads num_nodes contention locality).

Section Draws.
Context {R : Type}.
Variable normal : float → float → R → float * R.

(** The next [k] noise draws of a generator in state [r]. *)
Fixpoint draws (k : nat) (r : R) : list float :=
  match k with
  | O => []
  | S k' =>
      let draw := normal 1.0%float 0.05%float r in
      fst draw :: draws k' (snd draw)
  end.
End Draws.

(** ** A generator to run the program on *)

(** Its state counts the draws; seeding sets the count back to zero, and
    every draw is the mean asked for. *)
Definition counting_seed (s : Z) : nat := 0%nat.

Definition counting_normal (loc scale : float) (k : nat) : float * nat :=
  (loc, S k).

(** A full disk when the figure is saved: the 228th call of [main]. *)
Definition disk_full : exn := mk_exn OSError "No space left on device".

Definition savefig_fails : list (option exn) :=
  replicate 227 None ++ [Some disk_full].

(** The world in which [main] calls [create_figure5_grid]: the two
    opening lines are printed and the progress bar is open. *)
Definition entered_grid {R : Type} (w : Py.world (R:=R)) : Py.world :=
  Py.mk_world (Py.rng w) (Py.calls w)
    (((Py.console w ++ [Print "Generating Figure 5 grid layout..."])
        ++ [Print (str_mul "=" 60)])
       ++ [TqdmOpen 1 "Creating grid" "figure"])
    (Py.env_script w).

(** The world [main] leaves behind after it has handled [e]: the bar is
    closed, the message and the trace are printed, nothing else changes. *)
Definition reported {R : Type} (e : exn) (w : Py.world (R:=R)) : Py.world :=
  Py.mk_world (Py.rng w) (Py.calls w)
    (((Py.console w ++ [TqdmClose])
        ++ [Print (newline +:+ "❌ Error generating plot: " +:+ exn_str e)])
       ++ [TracebackPrintExc e])
    (Py.env_script w).

(** The record of a run of the grid composer in which the environment
    lets every call through. *)
Definition grid_calls {R : Type} (normal : float → float → R → float * R)
    (r : R) : list call :=
  Py.calls (snd (Py.create_figure5_grid normal (Py.start r []))).

(** The throughput values a run of the whole script hands over. *)
Definition run_throughputs {R : Type} (seed : Z → R)
    (normal : float → float → R → float * R)
    (r : R) (env : list (option exn)) : list pynum :=
  throughput_sequence (Py.calls (snd (Py.script seed normal (Py.start r env)))).

(** ** The specification's tables *)

(** The three systems and the three contention levels of the
    specification, with the names the program knows them by. *)
Inductive System := ALock | MCS | Spin.
Inductive Contention := High | Medium | Low.

Definition system_name (s : System) : string :=
  match s with ALock => "ALock" | MCS => "MCS" | Spin => "Spin" end.

Definition contention_name (c : Contention) : string :=
  match c with High => "high" | Medium => "medium" | Low => "low" end.

Definition base_constant (s : System) : Z :=
  match s with ALock => 500000 | MCS => 200000 | Spin => 150000 end.

Definition thread_k (s : System) : float :=
  match s with ALock => 0.15 | MCS => 0.12 | Spin => 0.08 end%float.

Definition locality_m (s : System) : float :=
  match s with ALock => 0.02 | MCS => 0.01 | Spin => 0.005 end%float.

Definition locality_override (s : System) : float :=
  match s with ALock => 1.3 | MCS => 0.1 | Spin => 0.05 end%float.

Definition alock_contention_factor (c : Contention) : float :=
  match c with High => 1.2 | Medium => 1.0 | Low => 0.85 end%float.

Definition knee (s : System) : Z :=
  match s with ALock => 100 | MCS => 80 | Spin => 40 end.

Definition degradation_rate (s : System) : float :=
  match s with ALock => 0.001 | MCS => 0.002 | Spin => 0.003 end%float.

(** The parameter tuples of the specification's data model (the system
    and the contention level are taken from the two enumerations). *)
Definition mem_Z (x : Z) (xs : list Z) : bool := existsb (Z.eqb x) xs.

Definition valid_tuple (threadsPerNode nodeCount locality : Z) : bool :=
  mem_Z threadsPerNode THREADS_PER_NODE
  && mem_Z nodeCount NUM_NODES
  && mem_Z locality [85; 90; 95; 100].

(** The integers [float_of_int] converts as CPython does, without
    [OverflowError]. *)
Definition convertible (z : Z) : Prop := Z.abs z < 2 ^ 1023.

(** The model applied to a tuple of the specification. *)
Definition model_locals (s : System) (threadsPerNode nodeCount : Z)
    (c : Contention) (locality : Z) : locals :=
  throughput_locals (system_name s) threadsPerNode nodeCount
    (contention_name c) locality.

(** A float that is at least one: positive, finite, and with its leading
    digit at or above the units. *)
Definition at_least_one (x : float) : bool :=
  match Prim2SF x with
  | S754_finite false m e => 1 <=? Zpos (digits2_pos m) + e
  | _ => false
  end.

(** The smallest degradation factor on the documented grid, reached at
    240 threads: the binary64 values of [1.0 - 140 * 0.001],
    [1.0 - 160 * 0.002] and [1.0 - 200 * 0.003]. *)
Definition degradation_floor (s : System) : float :=
  match s with
  | ALock => 0.86
  | MCS => 0.6799999999999999
  | Spin => 0.4
  end%float.

(** The floors as the decimal numbers 0.86, 0.68 and 0.4. *)
Definition decimal_floor (s : System) : float :=
  match s with ALock => 0.86 | MCS => 0.68 | Spin => 0.4 end%float.

(** ** What a computation may do to the world *)

(** The entries of the environment's script a computation has used up:
    on a return every one of them let its call through; on an exception
    raised by the environment the last one is that exception and the
    ones before it let their calls through. *)
Definition script_used {A} (used : list (option exn)) (r : outcome A) : Prop :=
  match r with
  | Ok _ => Forall (λ o, o = None) used
  | Raise e => ∃ k : nat, used = replicate k None ++ [Some e]
  end.

(** A computation that leaves the console alone, only appends calls that
    satisfy [P], only raises what the environment raises, and returns
    values that satisfy [Q]. *)
Definition sat {R A} (P : call → Prop) (Q : A → Prop) (m : Py.M (R:=R) A) : Prop :=
  ∀ w : Py.world,
    Py.console (snd (m w)) = Py.console w
    ∧ (∃ new used,
         Py.calls (snd (m w)) = Py.calls w ++ new
         ∧ Forall P new
         ∧ Py.env_script w = used ++ Py.env_script (snd (m w))
         ∧ script_used used (fst (m w)))
    ∧ (∀ a, fst (m w) = Ok a → Q a).

(** The subplot a call draws on, for the calls that draw on one. *)
Definition call_axes (c : call) : option axes_id :=
  match c with
  | AxPlot ax _ | AxSetXlabel ax _ _ | AxSetYlabel ax _ _ _
  | AxGrid ax _ _ _ | AxSetXlim ax _ _ | AxSetYlim ax _
  | AxSetXticks ax _ | AxTickParams ax _ _ _
  | AxText ax _ _ _ _ _ _ _ | AxSetTitle ax _ _ _ _ => Some ax
  | _ => None
  end.

(** A series the plotting library can draw: one value for each of the
    six thread counts, none of them negative. *)
Definition series_ok (ln : line2d) : Prop :=
  xdata ln = THREADS_PER_NODE
  ∧ length (ydata ln) = length (xdata ln)
  ∧ Forall (λ y, py_ge0 y = true) (ydata ln).

(** A call of a subplot function working on [ax]. *)
Definition subplot_call_ok (ax : axes_id) (c : call) : Prop :=
  call_axes c = Some ax
  ∧ match c with AxPlot _ ln => series_ok ln | _ => True end.

(** A subplot of the 3 by 4 grid. *)
Definition in_grid (ax : axes_id) : Prop := (ax.1 < 3)%nat ∧ (ax.2 < 4)%nat.

(** A call of the grid composer: it draws on a subplot of the grid, if
    on any, and what it plots is a drawable series. *)
Definition grid_call_ok (c : call) : Prop :=
  (∀ ax, call_axes c = Some ax → in_grid ax)
  ∧ match c with AxPlot _ ln => series_ok ln | _ => True end.

(** A computation that keeps the calls made so far and never records
    [plt.close()] in a run that raises; when [closes] is false it does not
    record it in a run that returns either.  Returned values satisfy
    [Q]. *)
Definition tracks {R A} (Q : A → Prop) (closes : bool)
    (m : Py.M (R:=R) A) : Prop :=
  ∀ w : Py.world,
    ∃ new,
      Py.calls (snd (m w)) = Py.calls w ++ new
      ∧ match fst (m w) with
        | Ok a => Q a ∧ (closes = false → PltClose ∉ new)
        | Raise _ => PltClose ∉ new
        end.

(** The state of the generator after [k] more noise draws. *)
Fixpoint rng_after {R : Type} (normal : float → float → R → float * R)
    (k : nat) (r : R) : R :=
  match k with
  | O => r
  | S k' => rng_after normal k' (snd (normal 1.0%float 0.05%float r))
  end.

(** A computation that, when it returns, has drawn exactly [k] times. *)
Definition draws_exactly {R A} (normal : float → float → R → float * R)
    (k : nat) (m : Py.M (R:=R) A) : Prop :=
  ∀ (w : Py.world) (a : A),
    fst (m w) = Ok a → Py.rng (snd (m w)) = rng_after normal k (Py.rng w).

(** The y labels and the axis settings a subplot was given, in order. *)
Definition ylabels_on (ax : axes_id) (cs : list call) : list string :=
  cs ≫= λ c,
    match c with
    | AxSetYlabel ax' s _ _ => if decide (ax' = ax) then [s] else []
    | _ => []
    end.

Definition axis_settings_on (ax : axes_id) (cs : list call) : list call :=
  cs ≫= λ c,
    match c with
    | AxSetXlim ax' _ _ | AxSetYlim ax' _ | AxSetXticks ax' _ =>
        if decide (ax' = ax) then [c] else []
    | _ => []
    end.

(** * Properties *)

(** ** Binary64 arithmetic *)

Lemma ltb_leb_float (x y : float) : (x <? y)%float = true -> (x <=? y)%float = true.
Proof.
  rewrite ltb_spec, leb_spec. unfold SFltb, SFleb.
  destruct (SFcompare _ _) as [[]|]; congruence.
Qed.

Lemma digits2_pos_bounds (m : positive) :
  2 ^ (Zpos (digits2_pos m) - 1) <= Zpos m < 2 ^ Zpos (digits2_pos m).
Proof.
  induction m as [m IH | m IH |]; cbn [digits2_pos]; [| | cbn; lia].
  all: rewrite Pos2Z.inj_succ;
    pose proof (Pos2Z.is_pos (digits2_pos m)) as Hd;
    remember (Zpos (digits2_pos m)) as d eqn:Ed; clear Ed;
    assert (E : 2 ^ d = 2 * 2 ^ (d - 1))
      by (rewrite <- Z.pow_succ_r by lia; f_equal; lia);
    replace (Z.succ d - 1) with d by lia;
    rewrite Z.pow_succ_r by lia;
    remember (2 ^ d) as a; remember (2 ^ (d - 1)) as b.
  - rewrite Pos2Z.inj_xI. lia.
  - rewrite Pos2Z.inj_xO. lia.
Qed.

Lemma shr_1_m (r : shr_record) : 0 <= shr_m r -> shr_m (shr_1 r) = shr_m r / 2.
Proof.
  destruct r as [m b s]. cbn [shr_m]. intros Hm.
  rewrite <- Z.div2_div.
  destruct m as [| [p | p |] | p]; try reflexivity; lia.
Qed.

Lemma iter_shr_1_m (p : positive) : forall r : shr_record,
  0 <= shr_m r -> shr_m (SpecFloat.iter_pos shr_1 p r) = shr_m r / 2 ^ Zpos p.
Proof.
  induction p as [p IH | p IH |]; intros r Hr; cbn [SpecFloat.iter_pos].
  - assert (H1 : 0 <= shr_m (shr_1 r))
      by (rewrite shr_1_m by trivial; apply Z.div_pos; lia).
    assert (H2 : 0 <= shr_m (SpecFloat.iter_pos shr_1 p (shr_1 r)))
      by (rewrite IH by trivial; apply Z.div_pos;
          [trivial | apply Z.pow_pos_nonneg; lia]).
    assert (Hp : 0 < 2 ^ Zpos p) by (apply Z.pow_pos_nonneg; lia).
    rewrite IH, IH, shr_1_m by trivial.
    replace (2 ^ Zpos p~1) with (2 * 2 ^ Zpos p * 2 ^ Zpos p).
    + rewrite !Z.div_div by lia. f_equal. ring.
    + replace (Zpos p~1) with (1 + Zpos p + Zpos p) by lia.
      rewrite !Z.pow_add_r by lia. reflexivity.
  - assert (H2 : 0 <= shr_m (SpecFloat.iter_pos shr_1 p r))
      by (rewrite IH by trivial; apply Z.div_pos;
          [trivial | apply Z.pow_pos_nonneg; lia]).
    assert (Hp : 0 < 2 ^ Zpos p) by (apply Z.pow_pos_nonneg; lia).
    rewrite IH, IH by trivial.
    rewrite Z.div_div by lia. f_equal.
    replace (Zpos p~0) with (Zpos p + Zpos p) by lia.
    rewrite Z.pow_add_r by lia. reflexivity.
  - rewrite shr_1_m by trivial. reflexivity.
Qed.

Lemma shr_record_of_loc_m (m : Z) (l : location) :
  shr_m (shr_record_of_loc m l) = m.
Proof. destruct l as [| []]; reflexivity. Qed.

Lemma shr_fexp_pos (m : positive) (e : Z) (l : location) :
  SpecFloat.emin prec emax < Zpos (digits2_pos m) + e ->
  exists m' : positive,
    shr_m (fst (shr_fexp prec emax (Zpos m) e l)) = Zpos m'
    ∧ SpecFloat.emin prec emax <= snd (shr_fexp prec emax (Zpos m) e l).
Proof.
  intros Hlow. unfold shr_fexp, shr, SpecFloat.fexp. cbn [Zdigits2].
  pose proof (digits2_pos_bounds m) as [Hm _].
  remember (Zpos (digits2_pos m)) as d eqn:Ed.
  assert (Hprec : 0 < prec) by reflexivity.
  destruct (Z.max (d + e - prec) (SpecFloat.emin prec emax) - e) as [| n | n] eqn:En;
    cbn [fst snd].
  - exists m. rewrite shr_record_of_loc_m. split; [reflexivity | lia].
  - rewrite iter_shr_1_m by (rewrite shr_record_of_loc_m; lia).
    rewrite shr_record_of_loc_m.
    assert (Hn : Zpos n <= d - 1) by lia.
    assert (Hpow : 2 ^ Zpos n <= 2 ^ (d - 1))
      by (apply Z.pow_le_mono_r; lia).
    assert (Hpos : 0 < 2 ^ Zpos n) by (apply Z.pow_pos_nonneg; lia).
    assert (Hq : 1 <= Zpos m / 2 ^ Zpos n)
      by (apply Z.div_le_lower_bound; lia).
    destruct (Zpos m / 2 ^ Zpos n) as [| q | q]; try lia.
    exists q. split; [reflexivity | lia].
  - exists m. rewrite shr_record_of_loc_m. split; [reflexivity | lia].
Qed.

Lemma round_nearest_even_pos (m : positive) (l : location) :
  exists m' : positive, round_nearest_even (Zpos m) l = Zpos m'.
Proof.
  destruct l as [| []]; cbn [round_nearest_even].
  - now exists m.
  - destruct (Z.even (Zpos m)); [now exists m | now exists (m + 1)%positive].
  - now exists m.
  - now exists (m + 1)%positive.
Qed.

(** Rounding a positive number that is not below the smallest subnormal
    gives a positive number: it does not underflow to zero. *)
Lemma binary_round_aux_pos (m : positive) (e : Z) :
  SpecFloat.emin prec emax < Zpos (digits2_pos m) + e ->
  SFltb (S754_zero false)
    (binary_round_aux prec emax false (Zpos m) e loc_Exact) = true.
Proof.
  intros Hlow. unfold binary_round_aux.
  destruct (shr_fexp_pos m e loc_Exact Hlow) as (m1 & Hm1 & He1).
  destruct (shr_fexp prec emax (Zpos m) e loc_Exact) as [mrs1 e1].
  cbn [fst snd] in Hm1, He1. rewrite Hm1.
  destruct (round_nearest_even_pos m1 (loc_of_shr_record mrs1)) as (m2 & ->).
  assert (Hlow2 : SpecFloat.emin prec emax < Zpos (digits2_pos m2) + e1) by lia.
  destruct (shr_fexp_pos m2 e1 loc_Exact Hlow2) as (m3 & Hm3 & _).
  destruct (shr_fexp prec emax (Zpos m2) e1 loc_Exact) as [mrs2 e2].
  cbn [fst] in Hm3. rewrite Hm3.
  destruct (e2 <=? emax - prec); reflexivity.
Qed.

Lemma mul_pos_float (x y : float) :
  at_least_one x = true ->
  (0 <? y)%float = true ->
  (0 <? x * y)%float = true.
Proof.
  unfold at_least_one. rewrite !ltb_spec, mul_spec.
  change (Prim2SF 0) with (S754_zero false).
  pose proof (Prim2SF_valid y) as Hvalid.
  destruct (Prim2SF x) as [| | | [] mx ex]; try discriminate.
  intros Hx%Z.leb_le.
  destruct (Prim2SF y) as [| [] | | [] my ey]; try discriminate; intros _.
  - reflexivity.
  - cbn [SF64mul SFmul xorb]. apply binary_round_aux_pos.
    cbn [valid_binary] in Hvalid. unfold bounded, canonical_mantissa in Hvalid.
    apply andb_prop in Hvalid as [Hcanon%Z.eqb_eq _]. unfold SpecFloat.fexp in Hcanon.
    pose proof (digits2_pos_bounds mx) as [Hmx _].
    pose proof (digits2_pos_bounds my) as [Hmy _].
    pose proof (digits2_pos_bounds (mx * my)) as [_ Hxy].
    rewrite Pos2Z.inj_mul in Hxy.
    assert (Hprod : 2 ^ (Zpos (digits2_pos mx) - 1 + (Zpos (digits2_pos my) - 1))
                    <= Zpos mx * Zpos my).
    { rewrite Z.pow_add_r by lia. apply Z.mul_le_mono_nonneg; try lia.
      all: apply Z.pow_nonneg; lia. }
    assert (Hd : Zpos (digits2_pos mx) - 1 + (Zpos (digits2_pos my) - 1)
                 < Zpos (digits2_pos (mx * my))).
    { apply (Z.pow_lt_mono_r_iff 2); lia. }
    assert (Hemin : SpecFloat.emin prec emax = -1074) by reflexivity.
    lia.
Qed.


(** Rounding keeps the sign it is given. *)
Lemma binary_round_aux_sign (s : bool) (m e : Z) (l : location) :
  match binary_round_aux prec emax s m e l with
  | S754_zero s' | S754_infinity s' | S754_finite s' _ _ => s' = s
  | S754_nan => True
  end.
Proof.
  unfold binary_round_aux.
  destruct (shr_fexp prec emax m e l) as [mrs1 e1].
  destruct (shr_fexp prec emax _ e1 loc_Exact) as [mrs2 e2].
  destruct (shr_m mrs2); [reflexivity | | exact I].
  destruct (e2 <=? emax - prec); reflexivity.
Qed.

Lemma mul_neg_float (x y : float) :
  at_least_one x = true →
  (x * y <? 0)%float = true →
  (y <? 0)%float = true.
Proof.
  unfold at_least_one. rewrite !ltb_spec, mul_spec.
  change (Prim2SF 0) with (S754_zero false).
  destruct (Prim2SF x) as [| | | [] mx ex]; try discriminate. intros _.
  destruct (Prim2SF y) as [sy | sy | | sy my ey];
    cbn [SF64mul SFmul xorb]; intros H.
  - destruct sy; discriminate H.
  - destruct sy; [reflexivity | discriminate H].
  - discriminate H.
  - pose proof (binary_round_aux_sign sy (Zpos (mx * my)) (ex + ey) loc_Exact)
      as Hs.
    destruct sy; [reflexivity |].
    destruct (binary_round_aux _ _ _ _ _ _) as [s' | s' | | s' m' e'];
      try subst s'; discriminate H.
Qed.
(** ** The throughput model *)

Lemma mem_Z_In x xs : mem_Z x xs = true → In x xs.
Proof.
  unfold mem_Z. rewrite existsb_exists. intros (y & Hy & Heq).
  apply Z.eqb_eq in Heq. now subst.
Qed.

(** C1: on every valid tuple the value before the noise is the product,
    taken left to right, of the system's base constant, the thread factor
    [1 + (threadsPerNode - 1) * k], the locality factor, the contention
    factor and the degradation factor; ALock's contention factors are 1.2,
    1.0 and 0.85, and for MCS and Spin low beats medium beats high. *)
Theorem throughput_is_product (s : System) (t n : Z) (c : Contention) (loc : Z) :
  valid_tuple t n loc = true →
  let L := model_locals s t n c loc in
  base_throughput L = base_constant s
  ∧ thread_factor L = (1.0 + float_of_int (t - 1) * thread_k s)%float
  ∧ throughput L =
      (float_of_int (base_constant s) * thread_factor L * locality_factor L
       * contention_factor L * degradation L)%float
  ∧ (s = ALock → contention_factor L = alock_contention_factor c)
  ∧ (s ≠ ALock →
       (contention_factor (model_locals s t n High loc)
          <? contention_factor (model_locals s t n Medium loc))%float = true
       ∧ (contention_factor (model_locals s t n Medium loc)
          <? contention_factor (model_locals s t n Low loc))%float = true).
Proof.
  intros _ L. subst L. unfold model_locals.
  destruct s; cbn [system_name base_constant thread_k];
    unfold throughput_locals; cbn [String.eqb Ascii.eqb Bool.eqb];
    cbn [base_throughput thread_factor throughput locality_factor
         contention_factor degradation].
  - repeat split; try congruence.
    intros _. destruct c; reflexivity.
  - repeat split; try congruence; reflexivity.
  - repeat split; try congruence; reflexivity.
Qed.

Lemma throughput_is_product_witness :
  valid_tuple 2 5 85 = true
  ∧ throughput (model_locals ALock 2 5 High 85) = 690000%float.
Proof.
  split; [reflexivity |].
  destruct (throughput_is_product ALock 2 5 High 85 eq_refl) as (_ & _ & -> & _).
  reflexivity.
Defined.

(** C3: below 100 the locality factor is [1 + (locality - 85) * m], at 100
    it is the system's override constant; for MCS at 100 it is 0.1, which
    is not the value 1.15 the linear rule would give. *)
Theorem locality_factor_override (s : System) (t n : Z) (c : Contention) (loc : Z) :
  convertible (loc - 85) →
  let L := model_locals s t n c loc in
  (loc < 100 →
     locality_factor L = (1.0 + float_of_int (loc - 85) * locality_m s)%float)
  ∧ (loc = 100 → locality_factor L = locality_override s)
  ∧ locality_factor (model_locals MCS t n c 100) = 0.1%float
  ∧ (1.0 + float_of_int (100 - 85) * locality_m MCS)%float = 1.15%float
  ∧ (0.1 =? 1.15)%float = false.
Proof.
  intros _ L. subst L. unfold model_locals.
  split; [| split; [| repeat split]].
  - intros Hlt. apply Z.ltb_lt in Hlt.
    destruct s; unfold throughput_locals; cbn [system_name String.eqb Ascii.eqb Bool.eqb locality_factor];
      rewrite Hlt; reflexivity.
  - intros ->. destruct s; reflexivity.
Qed.

Lemma locality_factor_override_witness :
  convertible (100 - 85)
  ∧ locality_factor (model_locals Spin 12 20 Low 100) = 0.05%float
  ∧ locality_factor (model_locals ALock 2 5 High 95) = 1.2%float.
Proof.
  assert (Hc : convertible (100 - 85)) by reflexivity.
  assert (Hc' : convertible (95 - 85)) by reflexivity.
  split; [exact Hc |]. split.
  - destruct (locality_factor_override Spin 12 20 Low 100 Hc) as (_ & H & _).
    rewrite (H eq_refl). reflexivity.
  - destruct (locality_factor_override ALock 2 5 High 95 Hc') as (H & _).
    rewrite (H eq_refl). reflexivity.
Defined.

(** C4: the degradation factor is exactly 1.0 while the total number of
    threads is at most the system's knee (the knee included), and
    [1.0 - (totalThreads - knee) * rate] above it, with nothing keeping it
    from going below zero; ALock with 5 nodes and 12 threads per node has
    60 threads in total and a factor of exactly 1.0. *)
Theorem degradation_above_knee (s : System) (t n : Z) (c : Contention) (loc : Z) :
  convertible (t * n - knee s) →
  let L := model_locals s t n c loc in
  total_threads L = t * n
  ∧ (t * n ≤ knee s → degradation L = 1.0%float)
  ∧ (knee s < t * n →
       degradation L =
         (1.0 - float_of_int (t * n - knee s) * degradation_rate s)%float)
  ∧ total_threads (model_locals ALock 12 5 c loc) = 60
  ∧ degradation (model_locals ALock 12 5 c loc) = 1.0%float
  ∧ (degradation (model_locals ALock 12 100 c loc) <? 0)%float = true.
Proof.
  intros _ L. subst L. unfold model_locals.
  split; [| split; [| split; [| repeat split]]].
  - destruct s; reflexivity.
  - intros Hle.
    assert (Hgt : (t * n >? knee s) = false)
      by (rewrite Z.gtb_ltb; apply Z.ltb_ge; exact Hle).
    destruct s; unfold throughput_locals;
      cbn [system_name String.eqb Ascii.eqb Bool.eqb degradation knee] in *;
      rewrite Hgt; reflexivity.
  - intros Hlt.
    assert (Hgt : (t * n >? knee s) = true)
      by (rewrite Z.gtb_ltb; apply Z.ltb_lt; exact Hlt).
    destruct s; unfold throughput_locals;
      cbn [system_name String.eqb Ascii.eqb Bool.eqb degradation knee
           degradation_rate] in *;
      rewrite Hgt; reflexivity.
Qed.

Lemma degradation_above_knee_witness :
  convertible (12 * 20 - knee Spin)
  ∧ degradation (model_locals Spin 12 20 High 85) = 0.4%float
  ∧ degradation (model_locals MCS 8 10 High 85) = 1.0%float.
Proof.
  assert (Hc : convertible (12 * 20 - knee Spin)) by reflexivity.
  assert (Hc' : convertible (8 * 10 - knee MCS)) by reflexivity.
  split; [exact Hc |]. split.
  - destruct (degradation_above_knee Spin 12 20 High 85 Hc) as (_ & _ & H & _).
    rewrite H; reflexivity.
  - destruct (degradation_above_knee MCS 8 10 High 85 Hc') as (_ & H & _).
    rewrite H; [reflexivity | cbn; lia].
Defined.

(** On the grid every factor is positive, and the value before the noise
    is at least one. *)
Lemma grid_values (s : System) (t n : Z) (c : Contention) (loc : Z) :
  valid_tuple t n loc = true →
  let L := model_locals s t n c loc in
  (0 <? degradation L)%float = true
  ∧ (degradation_floor s <=? degradation L)%float = true
  ∧ (0 <? throughput L)%float = true
  ∧ at_least_one (throughput L) = true.
Proof.
  unfold valid_tuple. intros [[Ht Hn]%andb_prop Hloc]%andb_prop.
  apply mem_Z_In in Ht, Hn, Hloc. cbn [In THREADS_PER_NODE NUM_NODES] in *.
  destruct s, c;
    repeat match goal with
      | H : _ ∨ _ |- _ => destruct H as [<- | H]
      | H : False |- _ => destruct H
      end;
    vm_compute; repeat split; reflexivity.
Qed.

(** C10 (amended): on the documented grid the degradation factor is
    strictly positive and at least 0.86 for ALock, 0.6799999999999999 for
    MCS (what [1.0 - 160 * 0.002] rounds to) and 0.4 for Spin, the floor
    being reached at 240 threads; the value before the noise is strictly
    positive, a positive draw is never clamped, and the product can only
    be negative when the draw is. *)
Theorem grid_degradation_positive (s : System) (t n : Z) (c : Contention) (loc : Z) :
  valid_tuple t n loc = true →
  let L := model_locals s t n c loc in
  (0 <? degradation L)%float = true
  ∧ (degradation_floor s <=? degradation L)%float = true
  ∧ degradation (model_locals s 12 20 c loc) = degradation_floor s
  ∧ (0 <? throughput L)%float = true
  ∧ (∀ noise : float,
       (0 <? noise)%float = true →
       apply_noise (throughput L) noise = PyFloat (throughput L * noise))
  ∧ (∀ noise : float,
       (throughput L * noise <? 0)%float = true → (noise <? 0)%float = true).
Proof.
  intros Hvalid L.
  destruct (grid_values s t n c loc Hvalid) as (Hdeg & Hfloor & Hthr & Hone).
  fold L in Hdeg, Hfloor, Hthr, Hone.
  repeat split; try assumption.
  - destruct s; reflexivity.
  - intros noise Hnoise. unfold apply_noise, py_max0.
    change (float_of_int 0) with 0%float.
    now rewrite (mul_pos_float _ _ Hone Hnoise).
  - intros noise. now apply mul_neg_float.
Qed.

Lemma grid_degradation_positive_witness :
  valid_tuple 12 20 85 = true
  ∧ (0 <? degradation (model_locals MCS 12 20 High 85))%float = true
  ∧ apply_noise (throughput (model_locals MCS 12 20 High 85)) 1.0
    = PyFloat 189311.99999999994.
Proof.
  split; [reflexivity |].
  destruct (grid_degradation_positive MCS 12 20 High 85 eq_refl)
    as (H & _ & _ & _ & Hnoise & _).
  split; [exact H |].
  rewrite Hnoise; reflexivity.
Defined.

(** C10 as stated fails for MCS: at 12 threads on each of 20 nodes the
    degradation factor is below 0.68. *)
Lemma mcs_degradation_below_decimal_floor :
  valid_tuple 12 20 85 = true
  ∧ (decimal_floor MCS <=? degradation (model_locals MCS 12 20 High 85))%float
    = false
  ∧ (degradation (model_locals MCS 12 20 High 85) <? 0.68)%float = true.
Proof. repeat split. Qed.

(** ** The program *)

Section Runs.
Context {R : Type}.
Variable seed : Z → R.
Variable normal : float → float → R → float * R.

(** C2: on every valid tuple and in every state of the generator, so
    for every value the draw may take, [generate_synthetic_throughput]
    returns the product of the value before the noise and the draw,
    clamped by [max(0, ...)], and the result is at least 0. *)
Theorem throughput_never_negative
    (s : System) (t n : Z) (c : Contention) (loc : Z) (w : Py.world) :
  valid_tuple t n loc = true →
  let draw := normal 1.0%float 0.05%float (Py.rng w) in
  ∃ v : pynum,
    Py.generate_synthetic_throughput normal
      (system_name s) t n (contention_name c) loc w
    = (Ok v, Py.mk_world (snd draw) (Py.calls w) (Py.console w)
               (Py.env_script w))
    ∧ v = py_max0 (throughput (model_locals s t n c loc) * fst draw)%float
    ∧ py_ge0 v = true.
Proof.
  intros _ draw. eexists. split; [reflexivity |]. split; [reflexivity |].
  unfold apply_noise, py_max0.
  destruct (float_of_int 0 <? _)%float eqn:Hpos; cbn [py_ge0].
  - now apply ltb_leb_float.
  - reflexivity.
Qed.

(** C9 (amended): when [create_figure5_grid] raises an exception that
    is an instance of [Exception], [main] returns normally; it has
    closed the bar and printed the message and the trace, and has left
    the generator, the calls made and the environment as the failure
    left them. *)
Theorem main_handles_Exception (w w' : Py.world) (e : exn) :
  Py.create_figure5_grid normal (entered_grid w) = (Raise e, w') →
  isinstance_Exception e = true →
  Py.main normal w = (Ok (), reported e w').
Proof.
  intros Hgrid Hcls.
  unfold Py.main, Py.try_except_Exception, Py.with_tqdm, Py.print, Py.emit.
  unfold mbind, Py.M_bind. cbn [fst snd].
  match goal with
  | |- context [Py.create_figure5_grid normal ?w0] =>
      change w0 with (entered_grid w)
  end.
  rewrite Hgrid. cbn [Py.emit snd]. rewrite Hcls. reflexivity.
Qed.

(** Whatever [main] raises is not an instance of [Exception]. *)
Lemma main_raises_no_Exception (w w' : Py.world) (e : exn) :
  Py.main normal w = (Raise e, w') → isinstance_Exception e = false.
Proof.
  unfold Py.main, Py.try_except_Exception, Py.with_tqdm, Py.print, Py.emit.
  unfold mbind, Py.M_bind. cbn [fst snd].
  destruct (Py.create_figure5_grid normal _) as [[path | e'] w0];
    cbn [Py.emit snd].
  - discriminate.
  - destruct (isinstance_Exception e') eqn:Hcls; [discriminate |].
    intros [= <- _]. exact Hcls.
Qed.

Ltac run_grid := reflexivity.

(** C5: the composer asks for one grid of 3 rows and 4 columns, so 12
    subplots; the labels (a) to (l) go to the subplots in column-major
    order, the titles pair the rows with 5, 10 and 20 nodes, and every
    subplot gets exactly 9 series, one for each of the 3 systems and
    each of the 3 variants, computed for the node count of its row. *)
Theorem grid_has_twelve_panels (r : R) :
  fst (Py.create_figure5_grid normal (Py.start r []))
    = Ok "fig5_plots/figure5_grid.png"
  ∧ grids (grid_calls normal r) = [(3, 4)%nat]
  ∧ length column_major = 12%nat
  ∧ panel_labels (grid_calls normal r) = labelled_panels
  ∧ panel_titles (grid_calls normal r) = titled_panels
  ∧ Forall (λ ax : axes_id,
      length (plots_on ax (grid_calls normal r)) = 9%nat
      ∧ (λ ln, (color ln, linestyle ln)) <$> plots_on ax (grid_calls normal r)
        = (λ '(system, v), (system_color ax.2 system, style_of_variant v))
            <$> panel_series ax.2
      ∧ mjoin (ydata <$> plots_on ax (grid_calls normal r))
        = zip_with (λ p noise, apply_noise (noiseless p) noise)
            (panel_parameters ax)
            (drop (draws_before ax) (draws normal (draws_before ax + 54) r)))
    column_major.
Proof.
  repeat split; try run_grid.
  let l := eval vm_compute in column_major in change column_major with l.
  repeat constructor; run_grid.
Qed.

(** C7 (amended): on every subplot a series carries a label exactly
    when it belongs to ALock, the first system; the labels of a subplot
    are the 3 texts "ALock <variant>", one per variant, for its 9
    series. *)
Theorem labels_on_first_system_only (r : R) :
  Forall (λ ax : axes_id,
      label <$> plots_on ax (grid_calls normal r)
        = (λ '(system, v), series_label system v) <$> panel_series ax.2
      ∧ legend_labels (plots_on ax (grid_calls normal r))
        = (λ v, "ALock " +:+ variant_text v) <$> variants ax.2
      ∧ length (legend_labels (plots_on ax (grid_calls normal r))) = 3%nat
      ∧ length (plots_on ax (grid_calls normal r)) = 9%nat)
    column_major.
Proof.
  let l := eval vm_compute in column_major in change column_major with l.
  repeat constructor; run_grid.
Qed.

(** C8: on every subplot the line style of a series is the one of its
    variant (85, 90, 95 or high, medium, low give solid, dashed,
    dotted), and its marker follows from the line style: a square with
    edge width 1 when dotted, a cross with edge width 2 when dashed,
    the system's own marker when solid. *)
Theorem marker_follows_line_style (r : R) :
  Forall (λ ax : axes_id,
      line_style <$> plots_on ax (grid_calls normal r)
        = (λ '(system, v),
             let ls := style_of_variant v in
             (ls, marker_of_style ls (system_marker ax.2 system),
              edgewidth_of_style ls))
            <$> panel_series ax.2)
    column_major
  ∧ (∀ own, marker_of_style ":" own = "s" ∧ edgewidth_of_style ":" = 1)
  ∧ (∀ own, marker_of_style "--" own = "x" ∧ edgewidth_of_style "--" = 2)
  ∧ (∀ own, marker_of_style "-" own = own)
  ∧ style_of_variant <$> variants 0 = ["-"; "--"; ":"]
  ∧ style_of_variant <$> variants 3 = ["-"; "--"; ":"].
Proof.
  split; [| repeat split].
  let l := eval vm_compute in column_major in change column_major with l.
  repeat constructor; run_grid.
Qed.

(** C6: the script seeds the generator with 42 before anything is
    drawn, so two runs in the same environment hand over the same
    throughput values whatever state the generator was in before; when
    every call goes through these are 648 values, the k-th being the
    k-th parameter tuple's value times the k-th draw after seeding,
    clamped. *)
Theorem seeded_runs_repeat (r1 r2 : R) (env : list (option exn)) :
  run_throughputs seed normal r1 env = run_throughputs seed normal r2 env
  ∧ run_throughputs seed normal r1 []
    = zip_with (λ p noise, apply_noise (noiseless p) noise)
        parameter_sequence (draws normal 648 (seed 42))
  ∧ length parameter_sequence = 648%nat.
Proof.
  split; [| split; [reflexivity | reflexivity]].
  unfold run_throughputs, Py.script, Py.call_env, Py.np_random_seed.
  unfold mbind, Py.M_bind, Py.start.
  cbn [Py.env_script Py.rng Py.calls Py.console].
  destruct env as [| [e |] env]; reflexivity.
Qed.

End Runs.

(** ** Runs on the counting generator *)

Lemma throughput_never_negative_witness :
  valid_tuple 2 5 85 = true
  ∧ fst (Py.generate_synthetic_throughput
           (λ (loc scale : float) (k : nat), ((- loc)%float, S k))
           "ALock" 2 5 "high" 85 (Py.start 0%nat []))
    = Ok (PyInt 0).
Proof.
  split; [reflexivity |].
  destruct (throughput_never_negative
              (λ (loc scale : float) (k : nat), ((- loc)%float, S k))
              ALock 2 5 High 85 (Py.start 0%nat []) eq_refl)
    as (v & Hrun & Hv & _).
  cbn [system_name contention_name] in Hrun.
  rewrite Hrun, Hv. reflexivity.
Defined.

Lemma main_handles_Exception_witness :
  isinstance_Exception disk_full = true
  ∧ fst (Py.main counting_normal (Py.start 0%nat savefig_fails)) = Ok ()
  ∧ last (Py.console (snd (Py.main counting_normal (Py.start 0%nat savefig_fails))))
    = Some (TracebackPrintExc disk_full).
Proof.
  split; [reflexivity |].
  assert (Hgrid :
    Py.create_figure5_grid counting_normal
      (entered_grid (Py.start 0%nat savefig_fails))
    = (Raise disk_full,
       snd (Py.create_figure5_grid counting_normal
              (entered_grid (Py.start 0%nat savefig_fails)))))
    by (vm_compute; reflexivity).
  rewrite (main_handles_Exception counting_normal _ _ disk_full Hgrid eq_refl).
  split; [reflexivity |].
  unfold reported. cbn [snd Py.console]. apply last_snoc.
Defined.

(** C9 as stated fails for an exception that is not an instance of
    [Exception]: a [KeyboardInterrupt] raised in the first call of the
    composer leaves [main], and neither message nor trace is printed. *)
Lemma keyboard_interrupt_escapes_main :
  Py.main counting_normal
    (Py.start 0%nat [Some (mk_exn KeyboardInterrupt "")])
  = (Raise (mk_exn KeyboardInterrupt ""),
     Py.mk_world 0%nat []
       [Print "Generating Figure 5 grid layout..."; Print (str_mul "=" 60);
        TqdmOpen 1 "Creating grid" "figure"; TqdmClose]
       []).
Proof. vm_compute. reflexivity. Qed.

(** C7 as stated fails for the combinations of the other systems: on the
    first subplot the series of MCS at 85 percent has no label, and the 9
    series carry 3 labels. *)
Lemma mcs_series_has_no_label :
  (λ ln, (color ln, linestyle ln, label ln))
    <$> plots_on (0, 0)%nat (grid_calls counting_normal 0%nat) !! 3%nat
  = Some (system_color 0 "MCS", style_of_variant (Locality 85), None)
  ∧ length (panel_series 0) = 9%nat
  ∧ legend_labels (plots_on (0, 0)%nat (grid_calls counting_normal 0%nat))
    = ["ALock 85%"; "ALock 90%"; "ALock 95%"].
Proof. vm_compute. repeat split. Qed.

(** ** More of the program: frames, failures and draws *)

Section Sat.
Context {R : Type}.
Variable normal : float → float → R → float * R.
Implicit Types (P : call → Prop) (w : Py.world (R:=R)).

Lemma sat_ret {A} P (a : A) : sat (R:=R) P (eq a) (mret a).
Proof.
  intros w. cbn. split; [reflexivity |]. split.
  - exists [], []. rewrite app_nil_r. repeat split; constructor.
  - now intros a' [= ->].
Qed.

Lemma sat_bind {A B} P (Q1 : A → Prop) (Q2 : B → Prop)
    (m : Py.M (R:=R) A) (f : A → Py.M B) :
  sat P Q1 m → (∀ a, Q1 a → sat P Q2 (f a)) → sat P Q2 (m ≫= f).
Proof.
  intros Hm Hf w. unfold mbind, Py.M_bind.
  destruct (Hm w) as (Hcon & (new & used & Hcalls & Hnew & Henv & Hused) & HQ).
  destruct (m w) as [[a | e] w1]; cbn [fst snd] in *.
  - destruct (Hf a (HQ a eq_refl) w1)
      as (Hcon' & (new' & used' & Hcalls' & Hnew' & Henv' & Hused') & HQ').
    split; [congruence |]. split; [| exact HQ'].
    exists (new ++ new'), (used ++ used').
    rewrite Hcalls', Hcalls, Henv, Henv', !app_assoc. repeat split.
    + now apply Forall_app.
    + destruct (fst (f a w1)) as [b | e]; cbn in *.
      * now apply Forall_app.
      * destruct Hused' as [k ->].
        assert (Hall : used = replicate (length used) None).
        { clear -Hused. induction Hused as [| o used -> _ IH]; cbn; congruence. }
        exists (length used + k)%nat.
        rewrite replicate_add, <- Hall, app_assoc. reflexivity.
  - split; [exact Hcon |]. split; [| discriminate].
    exists new, used. auto.
Qed.

Lemma sat_weaken {A} P P' (Q Q' : A → Prop) (m : Py.M (R:=R) A) :
  (∀ c, P c → P' c) → (∀ a, Q a → Q' a) → sat P Q m → sat P' Q' m.
Proof.
  intros HP HQ Hm w.
  destruct (Hm w) as (Hcon & (new & used & Hcalls & Hnew & Henv & Hused) & Hval).
  split; [exact Hcon |]. split; [| auto].
  exists new, used. repeat split; try assumption.
  eapply Forall_impl; eauto.
Qed.

Lemma sat_ret_True {A} P (a : A) : sat (R:=R) P (λ _, True) (mret a).
Proof. apply (sat_weaken P P (eq a)); [auto | auto | apply sat_ret]. Qed.

Lemma sat_post {A} P (Q Q' : A → Prop) (m : Py.M (R:=R) A) :
  sat P Q m → (∀ a, Q a → Q' a) → sat P Q' m.
Proof. intros Hm HQ. eapply sat_weaken; eauto. Qed.

Lemma sat_call_env P (c : call) :
  P c → sat (R:=R) P (λ _, True) (Py.call_env c).
Proof.
  intros Hc w. unfold Py.call_env.
  destruct (Py.env_script w) as [| [e |] script] eqn:Henv; cbn.
  - split; [reflexivity |]. split; [| trivial].
    exists [c], []. repeat split; auto.
  - split; [reflexivity |]. split; [| trivial].
    exists [], [Some e]. rewrite app_nil_r. repeat split; auto.
    now exists 0%nat.
  - split; [reflexivity |]. split; [| trivial].
    exists [c], [None]. repeat split; auto.
Qed.

Lemma sat_getitem `{Countable K} {V} P (repr : K → string)
    (d : gmap K V) (k : K) (v : V) :
  d !! k = Some v → sat (R:=R) P (eq v) (Py.getitem repr d k).
Proof. intros Hk. unfold Py.getitem. rewrite Hk. apply sat_ret. Qed.

Lemma sat_index {A} P (xs : list A) (i : nat) (x : A) :
  xs !! i = Some x → sat (R:=R) P (eq x) (Py.index xs i).
Proof. intros Hi. unfold Py.index. rewrite Hi. apply sat_ret. Qed.

Lemma sat_axes_at P (axes : list (list axes_id)) (row col : nat) (ax : axes_id) :
  axes !! row ≫= (.!! col) = Some ax → sat (R:=R) P (eq ax) (Py.axes_at axes row col).
Proof. intros Hi. unfold Py.axes_at. rewrite Hi. apply sat_ret. Qed.

Lemma py_ge0_apply_noise (x noise : float) : py_ge0 (apply_noise x noise) = true.
Proof.
  unfold apply_noise, py_max0.
  destruct (float_of_int 0 <? _)%float eqn:Hpos; cbn [py_ge0].
  - now apply ltb_leb_float.
  - reflexivity.
Qed.

Lemma sat_generate P (system : string) (t n : Z) (contention : string) (loc : Z) :
  sat P (λ v, py_ge0 v = true)
    (Py.generate_synthetic_throughput normal system t n contention loc).
Proof.
  intros w. cbn. split; [reflexivity |]. split.
  - exists [], []. rewrite app_nil_r. repeat split; constructor.
  - intros a [= <-]. apply py_ge0_apply_noise.
Qed.

(** The loop that collects one series, for any list of thread counts. *)
Lemma sat_collect P (system : string) (n : Z) (contention : string) (loc : Z)
    (ts : list Z) : ∀ (acc_t : list Z) (acc_y : list pynum),
  length acc_y = length acc_t →
  Forall (λ y, py_ge0 y = true) acc_y →
  sat P
    (λ '(tl, thl),
       tl = acc_t ++ ts ∧ length thl = length tl
       ∧ Forall (λ y, py_ge0 y = true) thl)
    (Py.for_ ts
       (λ num_threads '(threads_list, throughput_list),
          throughput ←
            Py.generate_synthetic_throughput normal
              system num_threads n contention loc;
          mret (threads_list ++ [num_threads], throughput_list ++ [throughput]))
       (acc_t, acc_y)).
Proof.
  induction ts as [| t ts IH]; intros acc_t acc_y Hlen Hge; cbn [Py.for_].
  - eapply sat_post; [apply sat_ret |].
    intros [tl thl] [= <- <-]. rewrite app_nil_r. auto.
  - apply sat_bind with
      (Q1 := λ s, ∃ y, py_ge0 y = true ∧ s = (acc_t ++ [t], acc_y ++ [y])).
    + eapply sat_bind; [apply sat_generate |].
      intros y Hy. eapply sat_post; [apply sat_ret |].
      intros s <-. now exists y.
    + intros s (y & Hy & ->).
      eapply sat_post; [apply IH |].
      * rewrite !length_app, Hlen. reflexivity.
      * apply Forall_app. split; [assumption | repeat constructor; assumption].
      * intros [tl thl] (-> & Hl & Hall). rewrite <- app_assoc in *.
        repeat split; assumption.
Qed.

Lemma subplot_plot_ok (ax : axes_id) (tl : list Z) (thl : list pynum)
    (c m ls : string) (lw ms mew : Z) (lbl : option string) :
  tl = [] ++ THREADS_PER_NODE →
  length thl = length tl →
  Forall (λ y, py_ge0 y = true) thl →
  subplot_call_ok ax (AxPlot ax (mk_line tl thl c m ls lw ms mew lbl)).
Proof. intros -> Hl Hall. repeat split; assumption. Qed.

(** Symbolic execution of straight-line code under [sat]. *)
Ltac sat_intro :=
  let a := fresh "a" in
  let Ha := fresh "Ha" in
  intros a Ha; cbv beta in Ha;
  lazymatch type of Ha with
  | _ = a => destruct Ha
  | True => destruct a
  | _ => destruct a as [? ?]; destruct Ha as (? & ? & ?)
  end;
  cbn [String.eqb Ascii.eqb Bool.eqb].

Ltac sat_head :=
  lazymatch goal with
  | |- sat _ _ (mret _) => first [apply sat_ret | apply sat_ret_True]
  | |- sat _ _ (Py.getitem _ _ _) => apply sat_getitem; reflexivity
  | |- sat _ _ (Py.index _ _) => apply sat_index; reflexivity
  | |- sat _ _ (Py.axes_at _ _ _) => apply sat_axes_at; reflexivity
  | |- sat _ _ (Py.for_ THREADS_PER_NODE _ _) =>
      apply sat_collect; [reflexivity | apply List.Forall_nil]
  | |- sat _ _ (Py.call_env _) =>
      apply sat_call_env;
      first [ eapply subplot_plot_ok; eassumption
            | split; [reflexivity | exact I] ]
  | |- sat _ _ (_ ≫= _) => eapply sat_bind; [sat_head | sat_intro; sat_head]
  end.

Theorem create_subplot_cols1_3_sat (ax : axes_id) (n : Z) (contention : string) :
  sat (subplot_call_ok ax) (eq ax)
    (Py.create_subplot_cols1_3 normal ax n contention).
Proof.
  unfold Py.create_subplot_cols1_3.
  cbn [Py.for_ SYSTEMS LOCALITY_PERCENTAGES].
  sat_head.
Qed.

Theorem create_subplot_col4_sat (ax : axes_id) (n : Z) :
  sat (subplot_call_ok ax) (eq ax) (Py.create_subplot_col4 normal ax n).
Proof.
  unfold Py.create_subplot_col4.
  cbn [Py.for_ SYSTEMS].
  sat_head.
Qed.

Lemma subplot_call_ok_grid (ax : axes_id) :
  in_grid ax → ∀ c : call, subplot_call_ok ax c → grid_call_ok c.
Proof.
  intros Hax c [Hc Hplot]. split; [| exact Hplot].
  intros ax' Hc'. congruence.
Qed.

Lemma grid_call_ok_axes (c : call) (ax : axes_id) :
  call_axes c = Some ax → in_grid ax →
  match c with AxPlot _ _ => False | _ => True end →
  grid_call_ok c.
Proof.
  intros Hc Hax Hnp. split; [intros ax' Hc'; congruence |].
  destruct c; try exact I. destruct Hnp.
Qed.

Lemma grid_call_ok_plt (c : call) :
  call_axes c = None → grid_call_ok c.
Proof.
  intros Hc. split; [intros ax' Hc'; congruence |].
  destruct c; try exact I. discriminate.
Qed.

Lemma subplot_call_not_close (ax : axes_id) (c : call) :
  subplot_call_ok ax c → c ≠ PltClose.
Proof. intros [Hc _] ->. discriminate. Qed.

Ltac in_grid_tac := split; cbn; lia.

Ltac grid_head :=
  lazymatch goal with
  | |- sat _ _ (mret _) => first [apply sat_ret | apply sat_ret_True]
  | |- sat _ _ (Py.index _ _) => apply sat_index; reflexivity
  | |- sat _ _ (Py.axes_at _ _ _) => apply sat_axes_at; reflexivity
  | |- sat _ _ (Py.create_subplot_cols1_3 _ _ _ _) =>
      eapply sat_weaken; [ | | apply create_subplot_cols1_3_sat];
      [ first [apply subplot_call_ok_grid; in_grid_tac
              | apply subplot_call_not_close]
      | let H := fresh in intros ? H; exact H ]
  | |- sat _ _ (Py.create_subplot_col4 _ _ _) =>
      eapply sat_weaken; [ | | apply create_subplot_col4_sat];
      [ first [apply subplot_call_ok_grid; in_grid_tac
              | apply subplot_call_not_close]
      | let H := fresh in intros ? H; exact H ]
  | |- sat _ _ (Py.call_env _) =>
      apply sat_call_env;
      first [ discriminate
            | apply grid_call_ok_plt; reflexivity
            | eapply grid_call_ok_axes; [reflexivity | in_grid_tac | exact I] ]
  | |- sat _ _ (_ ≫= _) => eapply sat_bind; [grid_head | grid_intro; grid_head]
  end
with grid_intro :=
  let a := fresh "a" in
  let Ha := fresh "Ha" in
  intros a Ha; cbv beta in Ha;
  lazymatch type of Ha with
  | _ = a => destruct Ha
  | True => destruct a
  end;
  cbn [String.eqb Ascii.eqb Bool.eqb Nat.ltb Nat.leb Nat.add Py.for_].

Theorem create_figure5_grid_sat :
  sat grid_call_ok (eq "fig5_plots/figure5_grid.png")
    (Py.create_figure5_grid normal).
Proof.
  unfold Py.create_figure5_grid, Py.plt_subplots.
  let l := eval vm_compute in (Py.enumerate NUM_NODES) in
    change (Py.enumerate NUM_NODES) with l.
  cbn [seq].
  grid_head.
Qed.

(** What [sat] says about one run. *)
Lemma sat_frame {A} P (Q : A → Prop) (m : Py.M (R:=R) A) (w : Py.world) :
  sat P Q m →
  Py.console (snd (m w)) = Py.console w
  ∧ (∃ new, Py.calls (snd (m w)) = Py.calls w ++ new ∧ Forall P new)
  ∧ match fst (m w) with
    | Ok a => Q a
    | Raise e =>
        ∃ k : nat,
          Py.env_script w
          = replicate k None ++ Some e :: Py.env_script (snd (m w))
    end.
Proof.
  intros Hm.
  destruct (Hm w) as (Hcon & (new & used & Hcalls & Hnew & Henv & Hused) & HQ).
  split; [exact Hcon |]. split; [eauto |].
  destruct (fst (m w)) as [a | e]; [auto |].
  destruct Hused as [k ->]. exists k. now rewrite <- app_assoc in Henv.
Qed.

(** X4: [create_subplot_cols1_3], for any subplot, node count and
    contention name: it prints nothing, keeps the calls made so far and
    adds only calls on its own subplot, every series it plots has the six
    thread counts as x values and as many y values, none negative; it
    returns the subplot it was given, and raises only what the
    environment raised at its first failing call. *)
Theorem create_subplot_cols1_3_frame
    (ax : axes_id) (n : Z) (contention : string) (w : Py.world) :
  Z.abs n < 2 ^ 1000 →
  let out := Py.create_subplot_cols1_3 normal ax n contention w in
  Py.console (snd out) = Py.console w
  ∧ (∃ new,
       Py.calls (snd out) = Py.calls w ++ new
       ∧ Forall (subplot_call_ok ax) new)
  ∧ match fst out with
    | Ok ax' => ax' = ax
    | Raise e =>
        ∃ k : nat,
          Py.env_script w
          = replicate k None ++ Some e :: Py.env_script (snd out)
    end.
Proof.
  intros _ out.
  destruct (sat_frame _ _ _ w (create_subplot_cols1_3_sat ax n contention))
    as (Hcon & Hcalls & Hout).
  repeat split; try assumption.
  subst out. destruct (fst _); [now symmetry | assumption].
Qed.

(** X5: the same for [create_subplot_col4], for any subplot and node
    count. *)
Theorem create_subplot_col4_frame (ax : axes_id) (n : Z) (w : Py.world) :
  Z.abs n < 2 ^ 1000 →
  let out := Py.create_subplot_col4 normal ax n w in
  Py.console (snd out) = Py.console w
  ∧ (∃ new,
       Py.calls (snd out) = Py.calls w ++ new
       ∧ Forall (subplot_call_ok ax) new)
  ∧ match fst out with
    | Ok ax' => ax' = ax
    | Raise e =>
        ∃ k : nat,
          Py.env_script w
          = replicate k None ++ Some e :: Py.env_script (snd out)
    end.
Proof.
  intros _ out.
  destruct (sat_frame _ _ _ w (create_subplot_col4_sat ax n))
    as (Hcon & Hcalls & Hout).
  repeat split; try assumption.
  subst out. destruct (fst _); [now symmetry | assumption].
Qed.

(** X6: [create_figure5_grid] has no failure of its own: when it returns
    it returns the path of the figure, when it raises it raises what the
    environment raised at its first failing call, and when the
    environment lets every call through it returns. *)
Theorem grid_outcome (w : Py.world) :
  let out := Py.create_figure5_grid normal w in
  match fst out with
  | Ok save_path => save_path = "fig5_plots/figure5_grid.png"
  | Raise e =>
      ∃ k : nat,
        Py.env_script w
        = replicate k None ++ Some e :: Py.env_script (snd out)
  end
  ∧ (Forall (λ o, o = None) (Py.env_script w) →
     fst out = Ok "fig5_plots/figure5_grid.png").
Proof.
  intros out.
  destruct (sat_frame _ _ _ w create_figure5_grid_sat) as (_ & _ & Hout).
  fold out in Hout. split.
  - destruct (fst out); [now symmetry | assumption].
  - intros Hnone. destruct (fst out) as [p | e]; [now subst p |].
    destruct Hout as [k Hk]. rewrite Hk in Hnone.
    apply Forall_app in Hnone as [_ Hnone].
    apply Forall_cons in Hnone as [[=] _].
Qed.

(** X7: in every run of [create_figure5_grid], complete or cut short, it
    prints nothing, keeps the calls made so far, draws only on subplots
    of the 3 by 4 grid, and every series it plots has the six thread
    counts as x values and as many y values, none negative. *)
Theorem grid_calls_drawable (w : Py.world) :
  let out := Py.create_figure5_grid normal w in
  Py.console (snd out) = Py.console w
  ∧ ∃ new,
      Py.calls (snd out) = Py.calls w ++ new
      ∧ Forall grid_call_ok new.
Proof.
  intros out.
  destruct (sat_frame _ _ _ w create_figure5_grid_sat) as (Hcon & Hcalls & _).
  auto.
Qed.

Lemma tracks_leaf {A} (Q : A → Prop) (m : Py.M (R:=R) A) :
  sat (λ c, c ≠ PltClose) Q m → tracks Q false m.
Proof.
  intros Hm w.
  destruct (Hm w) as (_ & (new & used & Hcalls & Hnew & _) & HQ).
  exists new. split; [exact Hcalls |].
  assert (Hno : PltClose ∉ new).
  { intros Hin. rewrite Forall_forall in Hnew. now apply (Hnew _ Hin). }
  destruct (fst (m w)); auto.
Qed.

Lemma tracks_bind {A B} (Q1 : A → Prop) (Q2 : B → Prop) (closes : bool)
    (m : Py.M (R:=R) A) (f : A → Py.M B) :
  tracks Q1 false m → (∀ a, Q1 a → tracks Q2 closes (f a)) →
  tracks Q2 closes (m ≫= f).
Proof.
  intros Hm Hf w. unfold mbind, Py.M_bind.
  destruct (Hm w) as (new & Hcalls & Hout).
  destruct (m w) as [[a | e] w1]; cbn [fst snd] in *.
  - destruct Hout as [Ha Hno]. specialize (Hno eq_refl).
    destruct (Hf a Ha w1) as (new' & Hcalls' & Hout').
    exists (new ++ new'). rewrite Hcalls', Hcalls, app_assoc.
    split; [reflexivity |].
    destruct (fst (f a w1)).
    + destruct Hout' as [Hb Hno']. split; [exact Hb |].
      intros Hc. rewrite elem_of_app. intros [? | ?]; [auto | now apply Hno'].
    + rewrite elem_of_app. intros [? | ?]; auto.
  - exists new. auto.
Qed.

Lemma tracks_close {A} (a : A) :
  tracks (R:=R) (eq a) true (Py.call_env PltClose ≫= λ _, mret a).
Proof.
  intros w. unfold mbind, Py.M_bind, Py.call_env.
  destruct (Py.env_script w) as [| [e |] script]; cbn.
  - exists [PltClose]. split; [reflexivity |]. split; [reflexivity | discriminate].
  - exists []. rewrite app_nil_r. split; [reflexivity |]. apply not_elem_of_nil.
  - exists [PltClose]. split; [reflexivity |]. split; [reflexivity | discriminate].
Qed.

Lemma create_figure5_grid_tracks :
  tracks (eq "fig5_plots/figure5_grid.png") true (Py.create_figure5_grid normal).
Proof.
  unfold Py.create_figure5_grid, Py.plt_subplots.
  let l := eval vm_compute in (Py.enumerate NUM_NODES) in
    change (Py.enumerate NUM_NODES) with l.
  cbn [seq].
  eapply tracks_bind; [apply tracks_leaf; grid_head |].
  grid_intro. cbv zeta.
  eapply tracks_bind; [apply tracks_leaf; cbn [Py.for_]; grid_head |].
  intros _ _.
  eapply tracks_bind; [apply tracks_leaf; grid_head |].
  intros _ _.
  eapply tracks_bind; [apply tracks_leaf; grid_head |].
  intros _ _.
  apply tracks_close.
Qed.

(** X8: a run of [create_figure5_grid] that raises has not closed the
    figure: [plt.close()] is reached only when everything before it,
    saving included, went through. *)
Theorem grid_failure_leaves_figure_open (w w' : Py.world) (e : exn) :
  Py.create_figure5_grid normal w = (Raise e, w') →
  ∃ new, Py.calls w' = Py.calls w ++ new ∧ PltClose ∉ new.
Proof.
  intros Hrun. destruct (create_figure5_grid_tracks w) as (new & Hcalls & Hout).
  rewrite Hrun in Hcalls, Hout. eauto.
Qed.

(** X13: what [main] writes to the terminal, in every world: after the two
    opening lines and the opening of the bar, either the update of the
    bar, its closing and the three closing lines (the composer returned),
    or the closing of the bar followed by the message and the trace (it
    raised an instance of [Exception]), or the closing of the bar alone
    (it raised something else). *)
Theorem main_console (w : Py.world) :
  Py.console (snd (Py.main normal w))
  = Py.console (entered_grid w)
    ++ match fst (Py.create_figure5_grid normal (entered_grid w)) with
       | Ok save_path =>
           [TqdmUpdate 1; TqdmClose;
            Print (newline +:+ str_mul "=" 60);
            Print ("✓ Successfully generated Figure 5 grid: " +:+ save_path);
            Print (newline +:+ "Note: This uses synthetic data. Replace generate_synthetic_throughput() with your real data!")]
       | Raise e =>
           if isinstance_Exception e
           then [TqdmClose;
                 Print (newline +:+ "❌ Error generating plot: " +:+ exn_str e);
                 TracebackPrintExc e]
           else [TqdmClose]
       end.
Proof.
  destruct (grid_calls_drawable (entered_grid w)) as [Hcon _].
  cbv zeta in Hcon.
  unfold Py.main, Py.try_except_Exception, Py.with_tqdm, Py.print, Py.emit.
  unfold mbind, Py.M_bind. cbn [fst snd].
  match goal with
  | |- context [Py.create_figure5_grid normal ?w0] =>
      change w0 with (entered_grid w)
  end.
  destruct (Py.create_figure5_grid normal (entered_grid w)) as [[p | e] w1];
    unfold mret, Py.M_ret;
    cbn [fst snd Py.console Py.rng Py.calls Py.env_script] in *.
  - rewrite Hcon, <- !app_assoc. reflexivity.
  - destruct (isinstance_Exception e);
      cbn [fst snd Py.console Py.rng Py.calls Py.env_script];
      rewrite Hcon, <- ?app_assoc; reflexivity.
Qed.

(** *** Counting the draws *)

Lemma rng_after_add (k1 k2 : nat) (r : R) :
  rng_after normal (k1 + k2) r = rng_after normal k2 (rng_after normal k1 r).
Proof.
  revert r. induction k1 as [| k1 IH]; intros r; cbn [rng_after Nat.add].
  - reflexivity.
  - apply IH.
Qed.

Lemma draws_ret {A} (a : A) : draws_exactly normal 0 (mret a).
Proof. intros w a' _. reflexivity. Qed.

Lemma draws_bind {A B} (k1 k2 : nat) (m : Py.M (R:=R) A) (f : A → Py.M B) :
  draws_exactly normal k1 m → (∀ a, draws_exactly normal k2 (f a)) →
  draws_exactly normal (k1 + k2) (m ≫= f).
Proof.
  intros Hm Hf w b. unfold mbind, Py.M_bind.
  specialize (Hm w). destruct (m w) as [[a | e] w1]; cbn [fst snd] in *.
  - intros Hb. rewrite (Hf a w1 b Hb), (Hm a eq_refl). symmetry.
    apply rng_after_add.
  - discriminate.
Qed.

Lemma draws_for {A S} (k : nat) (xs : list A) (body : A → S → Py.M (R:=R) S) :
  (∀ x s, draws_exactly normal k (body x s)) →
  ∀ s, draws_exactly normal (length xs * k) (Py.for_ xs body s).
Proof.
  intros Hbody. induction xs as [| x xs IH]; intros s; cbn [Py.for_ length Nat.mul].
  - apply draws_ret.
  - apply draws_bind; [apply Hbody | apply IH].
Qed.

Lemma draws_eq {A} (k k' : nat) (m : Py.M (R:=R) A) :
  draws_exactly normal k m → k = k' → draws_exactly normal k' m.
Proof. now intros Hm <-. Qed.

Lemma draws_call_env (c : call) : draws_exactly normal 0 (Py.call_env c).
Proof.
  intros w a. unfold Py.call_env.
  destruct (Py.env_script w) as [| [e |] script]; cbn; try discriminate;
    reflexivity.
Qed.

Lemma draws_getitem `{Countable K} {V} (repr : K → string)
    (d : gmap K V) (k : K) :
  draws_exactly normal 0 (Py.getitem repr d k).
Proof.
  intros w a. unfold Py.getitem. destruct (d !! k); [reflexivity | discriminate].
Qed.

Lemma draws_index {A} (xs : list A) (i : nat) :
  draws_exactly normal 0 (Py.index xs i).
Proof.
  intros w a. unfold Py.index. destruct (xs !! i); [reflexivity | discriminate].
Qed.

Lemma draws_axes_at (axes : list (list axes_id)) (row col : nat) :
  draws_exactly normal 0 (Py.axes_at axes row col).
Proof.
  intros w a. unfold Py.axes_at.
  destruct (axes !! row ≫= _); [reflexivity | discriminate].
Qed.

Lemma draws_generate (system : string) (t n : Z) (contention : string) (loc : Z) :
  draws_exactly normal 1
    (Py.generate_synthetic_throughput normal system t n contention loc).
Proof. intros w a _. reflexivity. Qed.

Lemma draws_if {A} (k : nat) (b : bool) (m1 m2 : Py.M (R:=R) A) :
  draws_exactly normal k m1 → draws_exactly normal k m2 →
  draws_exactly normal k (if b then m1 else m2).
Proof. now destruct b. Qed.

Ltac draws_head leaf :=
  first
    [ leaf
    | lazymatch goal with
      | |- draws_exactly _ _ (mret _) => apply draws_ret
      | |- draws_exactly _ _ (Py.call_env _) => apply draws_call_env
      | |- draws_exactly _ _ (Py.getitem _ _ _) => apply draws_getitem
      | |- draws_exactly _ _ (Py.index _ _) => apply draws_index
      | |- draws_exactly _ _ (Py.axes_at _ _ _) => apply draws_axes_at
      | |- draws_exactly _ _ (Py.generate_synthetic_throughput _ _ _ _ _ _) =>
          apply draws_generate
      | |- draws_exactly _ _ (Py.for_ _ _ _) =>
          apply draws_for;
          let x := fresh "x" in
          intros x ?;
          lazymatch type of x with
          | prod _ _ => destruct x
          | _ => idtac
          end;
          cbv beta iota zeta; draws_head leaf
      | |- draws_exactly _ _ (_ ≫= _) =>
          eapply draws_bind; [draws_head leaf | intros; draws_head leaf]
      | |- draws_exactly _ _ (if _ then _ else _) =>
          apply draws_if; (eapply draws_eq; [draws_head leaf | reflexivity])
      | |- draws_exactly _ _ (let '(_, _) := ?p in _) =>
          destruct p; draws_head leaf
      end ].

Lemma create_subplot_cols1_3_draws (ax : axes_id) (n : Z) (contention : string) :
  draws_exactly normal 54 (Py.create_subplot_cols1_3 normal ax n contention).
Proof.
  unfold Py.create_subplot_cols1_3.
  eapply draws_eq; [draws_head fail | reflexivity].
Qed.

Lemma create_subplot_col4_draws (ax : axes_id) (n : Z) :
  draws_exactly normal 54 (Py.create_subplot_col4 normal ax n).
Proof.
  unfold Py.create_subplot_col4.
  eapply draws_eq; [draws_head fail | reflexivity].
Qed.

Lemma create_figure5_grid_draws :
  draws_exactly normal 648 (Py.create_figure5_grid normal).
Proof.
  unfold Py.create_figure5_grid, Py.plt_subplots. cbv zeta.
  eapply draws_eq;
    [ draws_head
        ltac:(idtac; lazymatch goal with
              | |- draws_exactly _ _ (Py.create_subplot_cols1_3 _ _ _ _) =>
                  apply create_subplot_cols1_3_draws
              | |- draws_exactly _ _ (Py.create_subplot_col4 _ _ _) =>
                  apply create_subplot_col4_draws
              end)
    | reflexivity ].
Qed.

(** X9: a run of [create_figure5_grid] that returns has advanced the
    generator by exactly 648 draws, in every world. *)
Theorem grid_draws_648 (w : Py.world) (save_path : string) :
  fst (Py.create_figure5_grid normal w) = Ok save_path →
  Py.rng (snd (Py.create_figure5_grid normal w))
  = rng_after normal 648 (Py.rng w).
Proof. apply create_figure5_grid_draws. Qed.

(** X11: a complete run makes four calls that are not on a subplot, in
    this order: it asks for the 3 by 4 grid, lays it out, saves the
    figure once, at 300 dpi under the path it returns, and closes it. *)
Theorem grid_saves_then_closes (r : R) :
  filter (λ c, call_axes c = None) (grid_calls normal r)
  = [PltSubplots 3 4 (16, 12);
     PltTightLayout [0.02; 0.02; 0.98; 0.98]%float 2.0%float;
     PltSavefig "fig5_plots/figure5_grid.png" 300 "tight" 0.2%float;
     PltClose]
  ∧ fst (Py.create_figure5_grid normal (Py.start r []))
    = Ok "fig5_plots/figure5_grid.png".
Proof. split; vm_compute; reflexivity. Qed.

(** X12: what [main] returns: it returns normally when the composer
    returns and when the composer raises an instance of [Exception]; any
    other exception of the composer leaves [main] as it is. *)
Theorem main_outcome (w : Py.world) :
  fst (Py.main normal w)
  = match fst (Py.create_figure5_grid normal (entered_grid w)) with
    | Ok _ => Ok ()
    | Raise e => if isinstance_Exception e then Ok () else Raise e
    end.
Proof.
  unfold Py.main, Py.try_except_Exception, Py.with_tqdm, Py.print, Py.emit.
  unfold mbind, Py.M_bind. cbn [fst snd].
  match goal with
  | |- context [Py.create_figure5_grid normal ?w0] =>
      change w0 with (entered_grid w)
  end.
  destruct (Py.create_figure5_grid normal (entered_grid w)) as [[p | e] w1];
    cbn [fst snd]; [reflexivity |].
  destruct (isinstance_Exception e); reflexivity.
Qed.

(** X3: whatever its arguments, [generate_synthetic_throughput] returns
    either the integer 0 or a float that is strictly greater than zero:
    never a negative number, a negative zero or a NaN. *)
Theorem throughput_zero_or_positive
    (system : string) (t n : Z) (contention : string) (loc : Z)
    (w : Py.world) :
  Z.abs t < 2 ^ 500 → Z.abs n < 2 ^ 500 → Z.abs loc < 2 ^ 500 →
  ∃ v : pynum,
    fst (Py.generate_synthetic_throughput normal system t n contention loc w)
    = Ok v
    ∧ (v = PyInt 0 ∨ ∃ f : float, v = PyFloat f ∧ (0 <? f)%float = true).
Proof.
  intros _ _ _. eexists. split; [reflexivity |].
  unfold apply_noise, py_max0. change (float_of_int 0) with 0%float.
  destruct (0 <? _)%float eqn:Hpos; [right | left]; eauto.
Qed.

(** X10: in a complete run every subplot is given the x range 0 to 12, the
    y range from 0 up and the ticks 0, 4, 8 and 12; the subplots of the
    first column end with the y label "Throughput (ops/s)", those of the
    other columns with an empty one. *)
Theorem panel_decorations (r : R) :
  Forall (λ ax : axes_id,
      axis_settings_on ax (grid_calls normal r)
        = [AxSetXlim ax 0 12; AxSetYlim ax 0; AxSetXticks ax [0; 4; 8; 12]]
      ∧ last (ylabels_on ax (grid_calls normal r))
        = Some (if (ax.2 =? 0)%nat then "Throughput (ops/s)" else ""))
    column_major.
Proof.
  let l := eval vm_compute in column_major in change column_major with l.
  repeat constructor; vm_compute; reflexivity.
Qed.

End Sat.

Section Script.
Context {R : Type}.
Variable seed : Z → R.
Variable normal : float → float → R → float * R.

(** X14: when [os.makedirs] raises, the exception leaves the script as it
    is, whatever its class: the generator is not seeded, nothing is
    printed and no other call is made. *)
Theorem makedirs_failure_escapes (w : Py.world) (e : exn)
    (rest : list (option exn)) :
  Py.env_script w = Some e :: rest →
  Py.script seed normal w
  = (Raise e, Py.mk_world (Py.rng w) (Py.calls w) (Py.console w) rest).
Proof.
  intros Henv. unfold Py.script, Py.call_env.
  unfold mbind at 1, Py.M_bind at 1. now rewrite Henv.
Qed.

End Script.

(** X1: names the model does not know fall through to the last branch:
    a system that is neither ['ALock'] nor ['MCS'] is computed as Spin,
    and a contention level that is neither ['high'] nor ['medium'] as
    low, for every system. *)
Theorem unknown_names_fall_through
    (system : string) (t n : Z) (contention : string) (loc : Z) :
  (String.eqb system "ALock" = false → String.eqb system "MCS" = false →
   throughput_locals system t n contention loc
   = throughput_locals "Spin" t n contention loc)
  ∧ (String.eqb contention "high" = false →
     String.eqb contention "medium" = false →
     throughput_locals system t n contention loc
     = throughput_locals system t n "low" loc).
Proof.
  split.
  - intros Ha Hm. unfold throughput_locals. now rewrite Ha, Hm.
  - intros Hh Hm. unfold throughput_locals. rewrite Hh, Hm. reflexivity.
Qed.

(** X2: on every valid tuple the value before the noise is larger for
    ALock than for MCS, and larger for MCS than for Spin. *)
Theorem alock_leads_on_grid (t n : Z) (c : Contention) (loc : Z) :
  valid_tuple t n loc = true →
  (throughput (model_locals MCS t n c loc)
     <? throughput (model_locals ALock t n c loc))%float = true
  ∧ (throughput (model_locals Spin t n c loc)
     <? throughput (model_locals MCS t n c loc))%float = true.
Proof.
  unfold valid_tuple. intros [[Ht Hn]%andb_prop Hloc]%andb_prop.
  apply mem_Z_In in Ht, Hn, Hloc. cbn [In THREADS_PER_NODE NUM_NODES] in *.
  destruct c;
    repeat match goal with
      | H : _ ∨ _ |- _ => destruct H as [<- | H]
      | H : False |- _ => destruct H
      end;
    vm_compute; split; reflexivity.
Qed.

(** ** Instances *)

Lemma unknown_names_fall_through_witness :
  String.eqb "TicketLock" "ALock" = false
  ∧ String.eqb "TicketLock" "MCS" = false
  ∧ throughput (throughput_locals "TicketLock" 2 5 "none" 85) = 145800%float.
Proof.
  split; [reflexivity |]. split; [reflexivity |].
  destruct (unknown_names_fall_through "TicketLock" 2 5 "none" 85) as [Hs _].
  rewrite (Hs eq_refl eq_refl).
  destruct (unknown_names_fall_through "Spin" 2 5 "none" 85) as [_ Hc].
  rewrite (Hc eq_refl eq_refl). reflexivity.
Defined.

Lemma alock_leads_on_grid_witness :
  valid_tuple 12 20 100 = true
  ∧ (throughput (model_locals MCS 12 20 Low 100)
       <? throughput (model_locals ALock 12 20 Low 100))%float = true.
Proof.
  split; [reflexivity |].
  exact (proj1 (alock_leads_on_grid 12 20 Low 100 eq_refl)).
Defined.

Lemma throughput_zero_or_positive_witness :
  Z.abs (-3) < 2 ^ 500
  ∧ ∃ v : pynum,
      fst (Py.generate_synthetic_throughput counting_normal
             "ALock" (-3) 7 "high" 120 (Py.start 0%nat []))
      = Ok v
      ∧ (v = PyInt 0 ∨ ∃ f : float, v = PyFloat f ∧ (0 <? f)%float = true).
Proof.
  split; [reflexivity |].
  apply (throughput_zero_or_positive counting_normal); reflexivity.
Defined.

Lemma create_subplot_cols1_3_frame_witness :
  Z.abs 5 < 2 ^ 1000
  ∧ Py.console
      (snd (Py.create_subplot_cols1_3 counting_normal (0, 0)%nat 5 "high"
              (Py.start 0%nat [None; Some disk_full])))
    = [].
Proof.
  split; [reflexivity |].
  exact (proj1 (create_subplot_cols1_3_frame counting_normal (0, 0)%nat 5
                  "high" (Py.start 0%nat [None; Some disk_full]) eq_refl)).
Defined.

Lemma create_subplot_col4_frame_witness :
  Z.abs 20 < 2 ^ 1000
  ∧ Py.console
      (snd (Py.create_subplot_col4 counting_normal (2, 3)%nat 20
              (Py.start 0%nat [])))
    = [].
Proof.
  split; [reflexivity |].
  exact (proj1 (create_subplot_col4_frame counting_normal (2, 3)%nat 20
                  (Py.start 0%nat []) eq_refl)).
Defined.

Lemma grid_outcome_witness :
  Forall (λ o : option exn, o = None) [None; None; None]
  ∧ fst (Py.create_figure5_grid counting_normal
           (Py.start 0%nat [None; None; None]))
    = Ok "fig5_plots/figure5_grid.png".
Proof.
  assert (Hnone : Forall (λ o : option exn, o = None) [None; None; None])
    by (repeat constructor).
  split; [exact Hnone |].
  exact (proj2 (grid_outcome counting_normal
                  (Py.start 0%nat [None; None; None])) Hnone).
Defined.

Lemma grid_failure_leaves_figure_open_witness :
  Py.create_figure5_grid counting_normal (Py.start 0%nat savefig_fails)
  = (Raise disk_full,
     snd (Py.create_figure5_grid counting_normal
            (Py.start 0%nat savefig_fails)))
  ∧ ∃ new,
      Py.calls (snd (Py.create_figure5_grid counting_normal
                       (Py.start 0%nat savefig_fails)))
      = [] ++ new
      ∧ PltClose ∉ new.
Proof.
  assert (Hrun :
    Py.create_figure5_grid counting_normal (Py.start 0%nat savefig_fails)
    = (Raise disk_full,
       snd (Py.create_figure5_grid counting_normal
              (Py.start 0%nat savefig_fails))))
    by (vm_compute; reflexivity).
  split; [exact Hrun |].
  exact (grid_failure_leaves_figure_open counting_normal _ _ _ Hrun).
Defined.

Lemma grid_draws_648_witness :
  fst (Py.create_figure5_grid counting_normal (Py.start 0%nat []))
  = Ok "fig5_plots/figure5_grid.png"
  ∧ Py.rng (snd (Py.create_figure5_grid counting_normal (Py.start 0%nat [])))
    = 648%nat.
Proof.
  assert (Hrun :
    fst (Py.create_figure5_grid counting_normal (Py.start 0%nat []))
    = Ok "fig5_plots/figure5_grid.png")
    by (vm_compute; reflexivity).
  split; [exact Hrun |].
  rewrite (grid_draws_648 counting_normal _ _ Hrun). reflexivity.
Defined.

Lemma makedirs_failure_escapes_witness :
  Py.env_script (Py.start 7%nat [Some disk_full; None]) = [Some disk_full; None]
  ∧ Py.script counting_seed counting_normal
      (Py.start 7%nat [Some disk_full; None])
    = (Raise disk_full, Py.start 7%nat [None]).
Proof.
  split; [reflexivity |].
  exact (makedirs_failure_escapes counting_seed counting_normal
           (Py.start 7%nat [Some disk_full; None]) disk_full [None] eq_refl).
Defined.
